(** * dnpm_fixup.py: a shallow embedding and its specification

    The tool reads a correction table (identifier, timestamp), classifies the
    files of an input directory into patient records and submission reports,
    patches one top-level field of every record whose identifier is in the
    table, and writes the patched records to an output directory.

    The embedding follows [dnpm_fixup.py] function by function.  Library
    calls ([os.path], [os.listdir], [open], [csv.reader], [json.load],
    [json.dump]) are not part of the program: their results are read from a
    [world] record, and everything the program does with those results is
    modelled here, including the exceptions it lets through. *)

From Stdlib Require Import String Ascii ZArith Floats.SpecFloat.
From stdpp Require Import gmap list.

Set Warnings "-register-all".
Local Open Scope Z_scope.

(** ** Python strings *)

(** A Python [str] is a sequence of code points. *)
Abbreviation pystr := (list N).

(** The string literals of the source are ASCII. *)
Definition py (s : string) : pystr := N_of_ascii <$> list_ascii_of_string s.

(** [str.startswith] and [str.endswith]. *)
Fixpoint startswith (s p : pystr) : bool :=
  match p, s with
  | [], _ => true
  | _ :: _, [] => false
  | c :: p', d :: s' => N.eqb c d && startswith s' p'
  end.

Definition endswith (s p : pystr) : bool := startswith (reverse s) (reverse p).

(** The code points for which [str.isspace] holds; [str.strip()] removes
    them from both ends. *)
Definition is_space (c : N) : bool :=
  ((9 <=? c) && (c <=? 13) || (28 <=? c) && (c <=? 32)
   || (c =? 133) || (c =? 160) || (c =? 5760)
   || (8192 <=? c) && (c <=? 8202)
   || (c =? 8232) || (c =? 8233) || (c =? 8239) || (c =? 8287)
   || (c =? 12288))%N.

Fixpoint lstrip (s : pystr) : pystr :=
  match s with
  | c :: s' => if is_space c then lstrip s' else s
  | [] => []
  end.

Definition rstrip (s : pystr) : pystr := reverse (lstrip (reverse s)).

Definition strip (s : pystr) : pystr := rstrip (lstrip s).

(** Truth value of a [str]: the empty string is false. *)
Definition str_truthy (s : pystr) : bool :=
  match s with [] => false | _ => true end.

(** ** JSON values as [json.load] builds them *)

(** Objects become [dict]s, which keep insertion order, so an object is an
    association list; numbers become [int] or [float]. *)
Inductive json :=
| JNull
| JBool (b : bool)
| JInt (n : Z)
| JFloat (f : spec_float)
| JStr (s : pystr)
| JArr (items : list json)
| JObj (fields : list (pystr * json)).

(** Python's truth value, as used by [if not tan]. *)
Definition truthy (v : json) : bool :=
  match v with
  | JNull => false
  | JBool b => b
  | JInt n => negb (n =? 0)
  | JFloat (S754_zero _) => false
  | JFloat _ => true
  | JStr s => str_truthy s
  | JArr items => match items with [] => false | _ => true end
  | JObj fields => match fields with [] => false | _ => true end
  end.

(** [dict] lookup by key. *)
Fixpoint dict_lookup (k : pystr) (d : list (pystr * json)) : option json :=
  match d with
  | [] => None
  | (k', v) :: d' => if decide (k' = k) then Some v else dict_lookup k d'
  end.

(** [d[k] = v] on a [dict]: an existing key keeps its position, a new key
    goes to the end. *)
Fixpoint dict_set (k : pystr) (v : json) (d : list (pystr * json))
  : list (pystr * json) :=
  match d with
  | [] => [(k, v)]
  | (k', v') :: d' =>
      if decide (k' = k) then (k', v) :: d' else (k', v') :: dict_set k v d'
  end.

(** ** Exceptions *)

(** The subclasses of [Exception] that occur. *)
Inductive exception :=
| OSError
| UnicodeDecodeError
| CsvError
| JSONDecodeError
| RecursionError
| AttributeError
| TypeError
| KeyError.

(** What a [raise] carries: an [Exception], or the [SystemExit] of
    [sys.exit], which [except Exception] does not catch. *)
Inductive raised :=
| Exc (e : exception)
| SystemExit (code : Z).

(** [data.get(key, default)]: a method of [dict] only; every other JSON
    value has no attribute [get]. *)
Definition py_get (data : json) (key : pystr) (dflt : json)
  : exception + json :=
  match data with
  | JObj fields => inr (default dflt (dict_lookup key fields))
  | _ => inl AttributeError
  end.

(** [data[key] = value]: defined on a [dict]; with a [str] key every other
    JSON value raises [TypeError]. *)
Definition py_setitem (data : json) (key : pystr) (value : json)
  : exception + json :=
  match data with
  | JObj fields => inr (JObj (dict_set key value fields))
  | _ => inl TypeError
  end.

(** [tan in tan_date_map] on a [Dict[str, str]]: the key is hashed first,
    and a [list] or a [dict] is unhashable; a hashable value that is not a
    [str] equals no key. *)
Definition py_contains (tan_date_map : gmap pystr pystr) (tan : json)
  : exception + bool :=
  match tan with
  | JStr s => inr (bool_decide (is_Some (tan_date_map !! s)))
  | JArr _ | JObj _ => inl TypeError
  | _ => inr false
  end.

(** [tan_date_map[tan]]. *)
Definition py_getitem (tan_date_map : gmap pystr pystr) (tan : json)
  : exception + pystr :=
  match tan with
  | JStr s => match tan_date_map !! s with
              | Some d => inr d
              | None => inl KeyError
              end
  | JArr _ | JObj _ => inl TypeError
  | _ => inl KeyError
  end.

(** ** The outside world *)

(** What [open] followed by [json.load] gives for a path. *)
Inductive load_result :=
| LoadRaises (e : exception)
| Loaded (data : json).

(** What [open] followed by the iteration of [csv.reader] gives: the rows
    read, and the exception that ended the iteration, if any. *)
Record csv_read := {
  csv_rows : list (list pystr);
  csv_failure : option exception
}.

Record world := {
  w_isfile : pystr -> bool;                        (* os.path.isfile *)
  w_isdir : pystr -> bool;                         (* os.path.isdir *)
  w_csv : pystr -> csv_read;                       (* open, csv.reader *)
  w_listdir : pystr -> exception + list pystr;     (* os.listdir *)
  w_load : pystr -> load_result;                   (* open, json.load *)
  w_write : pystr -> json -> option exception      (* open, json.dump *)
}.

(** [os.path.join] of two components (POSIX). *)
Definition path_join (a b : pystr) : pystr :=
  if startswith b (py "/") then b
  else if bool_decide (a = []) || endswith a (py "/") then a ++ b
  else a ++ py "/" ++ b.

(** ** Observable behaviour *)

Inductive kind := KindA | KindB.

(** The lines the program prints. *)
Inductive message :=
| ConfigNotFound (path : pystr)
| InputDirNotFound (path : pystr)
| OutputDirNotFound (path : pystr)
| ErrorReadingConfig (e : exception)
| NotValidJson (path : pystr)
| ErrorReadingFile (path : pystr) (e : exception)
| NoTransferTAN (path : pystr)
| NoId (path : pystr)
| ErrorWritingFile (path : pystr) (e : exception)
| NoValidPairs
| NumberOfPairs (n : nat)
| FoundPatientRecords (n : nat)
| FoundSubmissionReports (n : nat)
| FixedPatientRecord (tan : json) (date : pystr)
| FixedSubmissionReport (tan : json) (date : pystr)
| SummaryModified (n : Z)
| SummaryErrors (n : Z).

Inductive event :=
| Stdout (m : message)
| Stderr (m : message)
| Patch (k : kind) (path : pystr)        (* a patcher opens [path] *)
| WriteFile (path : pystr) (data : json) (* [data] was written to [path] *)
| WriteFailed (path : pystr).            (* the write to [path] raised *)

(** A computation leaves a trace and either raises or returns. *)
Definition M (A : Type) : Type := list event * (raised + A).

#[global] Instance M_ret : MRet M := fun A a => ([], inr a).
#[global] Instance M_bind : MBind M := fun A B f m =>
  match m with
  | (tr, inl e) => (tr, inl e)
  | (tr, inr a) => let '(tr', r) := f a in (tr ++ tr', r)
  end.

Definition emit (e : event) : M unit := ([e], inr tt).
Definition raise {A} (e : raised) : M A := ([], inl e).

(** An exception nobody catches. *)
Definition lift {A} (r : exception + A) : M A :=
  match r with inl e => raise (Exc e) | inr a => mret a end.

(** [for x in l: body]. *)
Fixpoint for_each {A S} (l : list A) (body : S -> A -> M S) (s : S) : M S :=
  match l with
  | [] => mret s
  | x :: l' => s' ← body s x; for_each l' body s'
  end.

(** ** The program *)

(** The parsed command line ([parse_arguments]). *)
Record arguments := {
  config : pystr;
  in_dir : pystr;
  out_dir : pystr
}.

Definition validate_paths (w : world) (config_path in_dir out_dir : pystr)
  : M bool :=
  if negb (w_isfile w config_path) then
    emit (Stderr (ConfigNotFound config_path));; mret false
  else if negb (w_isdir w in_dir) then
    emit (Stderr (InputDirNotFound in_dir));; mret false
  else if negb (w_isdir w out_dir) then
    emit (Stderr (OutputDirNotFound out_dir));; mret false
  else mret true.

(** The body of [for row in reader]. *)
Definition add_row (tan_date_map : gmap pystr pystr) (row : list pystr)
  : gmap pystr pystr :=
  match row with
  | c0 :: c1 :: _ =>
      let tan := strip c0 in
      let date := strip c1 in
      if str_truthy tan && str_truthy date
      then <[tan := date]> tan_date_map
      else tan_date_map
  | _ => tan_date_map
  end.

(** [for row in reader], from the empty [tan_date_map]. *)
Definition read_rows (rows : list (list pystr)) : gmap pystr pystr :=
  foldl add_row ∅ rows.

Definition parse_config_file (w : world) (config_path : pystr)
  : M (gmap pystr pystr) :=
  let r := w_csv w config_path in
  let tan_date_map := read_rows (csv_rows r) in
  match csv_failure r with
  | Some e => emit (Stderr (ErrorReadingConfig e));; mret ∅
  | None => mret tan_date_map
  end.

Definition json_suffix : pystr := py ".json".
Definition patient_prefix : pystr := py "MVH_MTBPatientRecord_Patient".
Definition report_prefix : pystr := py "SubmissionReport_Patient".

(** The body of [for filename in os.listdir(in_dir)]. *)
Definition classify (w : world) (in_dir : pystr)
    (acc : list pystr * list pystr) (filename : pystr)
  : list pystr * list pystr :=
  let '(patient_record_files, submission_report_files) := acc in
  if negb (endswith filename json_suffix) then acc
  else if negb (w_isfile w (path_join in_dir filename)) then acc
  else if startswith filename patient_prefix then
    (patient_record_files ++ [filename], submission_report_files)
  else if startswith filename report_prefix then
    (patient_record_files, submission_report_files ++ [filename])
  else acc.

Definition get_json_files (w : world) (in_dir : pystr)
  : M (list pystr * list pystr) :=
  names ← lift (w_listdir w in_dir);
  mret (foldl (classify w in_dir) ([], []) names).

(** [try: with open(...) as f: data = json.load(f)] and its two handlers. *)
Definition read_json (w : world) (filepath : pystr) : M (option json) :=
  match w_load w filepath with
  | LoadRaises JSONDecodeError =>
      emit (Stderr (NotValidJson filepath));; mret None
  | LoadRaises e =>
      emit (Stderr (ErrorReadingFile filepath e));; mret None
  | Loaded data => mret (Some data)
  end.

(** [data.get('metadata', {}).get('transferTAN')] inside its
    [try ... except (AttributeError, TypeError): tan = None]. *)
Definition transferTAN_of (data : json) : exception + json :=
  match
    match py_get data (py "metadata") (JObj []) with
    | inr metadata => py_get metadata (py "transferTAN") JNull
    | inl e => inl e
    end
  with
  | inl AttributeError | inl TypeError => inr JNull
  | r => r
  end.

Definition process_patient_record (w : world) (filepath : pystr)
    (tan_date_map : gmap pystr pystr)
  : M (option (json * pystr * json)) :=
  emit (Patch KindA filepath);;
  loaded ← read_json w filepath;
  match loaded with
  | None => mret None
  | Some data =>
      tan ← lift (transferTAN_of data);
      if negb (truthy tan) then
        emit (Stderr (NoTransferTAN filepath));; mret None
      else
        found ← lift (py_contains tan_date_map tan);
        if negb found then mret None
        else
          new_date ← lift (py_getitem tan_date_map tan);
          data' ← lift (py_setitem data (py "submittedAt") (JStr new_date));
          mret (Some (tan, new_date, data'))
  end.

Definition process_submission_report (w : world) (filepath : pystr)
    (tan_date_map : gmap pystr pystr)
  : M (option (json * pystr * json)) :=
  emit (Patch KindB filepath);;
  loaded ← read_json w filepath;
  match loaded with
  | None => mret None
  | Some data =>
      tan ← lift (py_get data (py "id") JNull);
      if negb (truthy tan) then
        emit (Stderr (NoId filepath));; mret None
      else
        found ← lift (py_contains tan_date_map tan);
        if negb found then mret None
        else
          new_date ← lift (py_getitem tan_date_map tan);
          data' ← lift (py_setitem data (py "createdAt") (JStr new_date));
          mret (Some (tan, new_date, data'))
  end.

Definition write_output_file (w : world) (out_dir filename : pystr)
    (data : json) : M bool :=
  let filepath := path_join out_dir filename in
  match w_write w filepath data with
  | None => emit (WriteFile filepath data);; mret true
  | Some e =>
      emit (WriteFailed filepath);;
      emit (Stderr (ErrorWritingFile filepath e));; mret false
  end.

(** The two loop bodies of [main]; the state is
    [(modified_count, error_count)]. *)
Definition patient_body (w : world) (a : arguments)
    (tan_date_map : gmap pystr pystr) (counts : Z * Z) (filename : pystr)
  : M (Z * Z) :=
  let '(modified_count, error_count) := counts in
  let filepath := path_join (in_dir a) filename in
  result ← process_patient_record w filepath tan_date_map;
  match result with
  | Some (tan, new_date, data) =>
      ok ← write_output_file w (out_dir a) filename data;
      if ok : bool then
        emit (Stdout (FixedPatientRecord tan new_date));;
        mret (modified_count + 1, error_count)
      else mret (modified_count, error_count + 1)
  | None => mret counts
  end.

Definition report_body (w : world) (a : arguments)
    (tan_date_map : gmap pystr pystr) (counts : Z * Z) (filename : pystr)
  : M (Z * Z) :=
  let '(modified_count, error_count) := counts in
  let filepath := path_join (in_dir a) filename in
  result ← process_submission_report w filepath tan_date_map;
  match result with
  | Some (tan, new_date, data) =>
      ok ← write_output_file w (out_dir a) filename data;
      if ok : bool then
        emit (Stdout (FixedSubmissionReport tan new_date));;
        mret (modified_count + 1, error_count)
      else mret (modified_count, error_count + 1)
  | None => mret counts
  end.

Definition main (w : world) (a : arguments) : M unit :=
  valid ← validate_paths w (config a) (in_dir a) (out_dir a);
  if negb valid then raise (SystemExit 1)
  else
    tan_date_map ← parse_config_file w (config a);
    if bool_decide (tan_date_map = ∅) then
      emit (Stderr NoValidPairs);; raise (SystemExit 1)
    else
      emit (Stdout (NumberOfPairs (size tan_date_map)));;
      files ← get_json_files w (in_dir a);
      let '(patient_record_files, submission_report_files) := files in
      emit (Stdout (FoundPatientRecords (length patient_record_files)));;
      emit (Stdout (FoundSubmissionReports (length submission_report_files)));;
      counts ← for_each patient_record_files
                 (patient_body w a tan_date_map) (0, 0);
      counts ← for_each submission_report_files
                 (report_body w a tan_date_map) counts;
      emit (Stdout (SummaryModified counts.1));;
      if 0 <? counts.2 then emit (Stdout (SummaryErrors counts.2))
      else mret tt.

(** The exit status of the interpreter: 0 when [main] returns, the code of
    [sys.exit], and 1 after an exception nobody caught. *)
Definition exit_status {A} (r : raised + A) : Z :=
  match r with
  | inr _ => 0
  | inl (SystemExit code) => code
  | inl (Exc _) => 1
  end.

(** ** Vocabulary of the specification *)

(** A row contributes the pair [(tan, date)]: it has at least two fields,
    and the first two are [tan] and [date] after trimming, both non-empty. *)
Definition contributes (row : list pystr) (tan date : pystr) : Prop :=
  ∃ c0 c1 rest,
    row = c0 :: c1 :: rest ∧ strip c0 = tan ∧ strip c1 = date ∧
    tan ≠ [] ∧ date ≠ [].

(** A row with fewer than two fields, or whose identifier or timestamp is
    empty after trimming. *)
Definition malformed (row : list pystr) : Prop :=
  (length row < 2)%nat ∨
  ∃ c0 c1 rest, row = c0 :: c1 :: rest ∧ (strip c0 = [] ∨ strip c1 = []).

(** An entry the classifier keeps: its name ends with [.json] and it is a
    regular file of the input directory. *)
Definition kept (w : world) (in_dir filename : pystr) : bool :=
  endswith filename json_suffix && w_isfile w (path_join in_dir filename).

(** The two kinds of record side by side: the patcher of a kind, the loop
    body of [main] that calls it, the field it patches and the warning it
    prints when it finds no identifier. *)
Definition patcher (k : kind)
  : world → pystr → gmap pystr pystr → M (option (json * pystr * json)) :=
  match k with
  | KindA => process_patient_record
  | KindB => process_submission_report
  end.

Definition loop_body (k : kind)
  : world → arguments → gmap pystr pystr → Z * Z → pystr → M (Z * Z) :=
  match k with
  | KindA => patient_body
  | KindB => report_body
  end.

Definition patched_field (k : kind) : pystr :=
  match k with
  | KindA => py "submittedAt"
  | KindB => py "createdAt"
  end.

Definition no_identifier (k : kind) (filepath : pystr) : message :=
  match k with
  | KindA => NoTransferTAN filepath
  | KindB => NoId filepath
  end.

(** The expression a patcher computes its [tan] from. *)
Definition extract (k : kind) (data : json) : exception + json :=
  match k with
  | KindA => transferTAN_of data
  | KindB => py_get data (py "id") JNull
  end.

(** The identifier field of a record, when the document has one:
    [metadata.transferTAN] for Kind A, the top-level [id] for Kind B. *)
Definition identifier_field (k : kind) (data : json) : option json :=
  match k, data with
  | KindA, JObj fields =>
      match dict_lookup (py "metadata") fields with
      | Some (JObj metadata) => dict_lookup (py "transferTAN") metadata
      | _ => None
      end
  | KindB, JObj fields => dict_lookup (py "id") fields
  | _, _ => None
  end.

(** A [dict] without the key [k]. *)
Fixpoint dict_remove (k : pystr) (d : list (pystr * json))
  : list (pystr * json) :=
  match d with
  | [] => []
  | (k', v) :: d' =>
      if decide (k' = k) then dict_remove k d' else (k', v) :: dict_remove k d'
  end.

(** The same record with its identifier field taken out. *)
Definition without_identifier (k : kind) (data : json) : json :=
  match k, data with
  | KindA, JObj fields =>
      match dict_lookup (py "metadata") fields with
      | Some (JObj metadata) =>
          JObj (dict_set (py "metadata")
                  (JObj (dict_remove (py "transferTAN") metadata)) fields)
      | _ => data
      end
  | KindB, JObj fields => JObj (dict_remove (py "id") fields)
  | _, _ => data
  end.

(** The file operations of a trace, without what is printed. *)
Definition is_file_op (e : event) : bool :=
  match e with
  | Patch _ _ | WriteFile _ _ | WriteFailed _ => true
  | Stdout _ | Stderr _ => false
  end.

Definition file_ops (tr : list event) : list event := List.filter is_file_op tr.

(** The files a trace wrote, with their content. *)
Definition written (tr : list event) : list (pystr * json) :=
  flat_map (λ e, match e with WriteFile p d => [(p, d)] | _ => [] end) tr.

(** The write of [data] to [out], as it ends. *)
Definition write_op (w : world) (out : pystr) (data : json) : event :=
  match w_write w out data with
  | None => WriteFile out data
  | Some _ => WriteFailed out
  end.

(** The file operations prescribed for one file: its patch, immediately
    followed by its write when the patcher produced a correction. *)
Definition file_schedule (k : kind) (w : world) (a : arguments)
    (tan_date_map : gmap pystr pystr) (filename : pystr) : list event :=
  Patch k (path_join (in_dir a) filename) ::
  match (patcher k w (path_join (in_dir a) filename) tan_date_map).2 with
  | inr (Some (_, _, data)) =>
      [write_op w (path_join (out_dir a) filename) data]
  | _ => []
  end.

(** The file operations prescribed for a kind: its files in list order. *)
Definition kind_schedule (k : kind) (w : world) (a : arguments)
    (tan_date_map : gmap pystr pystr) (files : list pystr) : list event :=
  concat (file_schedule k w a tan_date_map <$> files).

(** The file operations prescribed for a run: Kind A, then Kind B. *)
Definition schedule (w : world) (a : arguments)
    (tan_date_map : gmap pystr pystr) (prs srs : list pystr) : list event :=
  kind_schedule KindA w a tan_date_map prs ++
  kind_schedule KindB w a tan_date_map srs.

(** ** A small installation, for concrete runs *)

Module Ex.

Definition cfg : pystr := py "fixes.csv".
Definition indir : pystr := py "in".
Definition outdir : pystr := py "out".
Definition args : arguments :=
  {| config := cfg; in_dir := indir; out_dir := outdir |}.

Definition tan1 : pystr := py "ABCD1234".
Definition tan2 : pystr := py "EF56".
Definition date1 : pystr := py "2025-10-15T14:30:00.000000000".
Definition date2 : pystr := py "2025-11-01T08:00:00.000000000".
Definition old_date : pystr := py "2020-01-01T00:00:00.000000000".

(** The table file: a duplicate identifier, a row with one field, a row
    with an empty timestamp, and fields to trim. *)
Definition rows : list (list pystr) :=
  [ [tan1; old_date];
    [py "only-one-field"];
    [py " ABCD1234 "; py " 2025-10-15T14:30:00.000000000"];
    [py "0000"; py "  "];
    [tan2; date2; py "ignored"] ].

Definition patient_name : pystr :=
  py "MVH_MTBPatientRecord_Patient_X_TAN_ABCD1234.json".
Definition patient_other : pystr :=
  py "MVH_MTBPatientRecord_Patient_Y_TAN_9999.json".
Definition report_name : pystr :=
  py "SubmissionReport_Patient_X_TAN_EF56.json".
Definition report_list : pystr :=
  py "SubmissionReport_Patient_Z_TAN_0000.json".

Definition patient_doc : json :=
  JObj [ (py "metadata", JObj [ (py "transferTAN", JStr tan1) ]);
         (py "submittedAt", JStr old_date);
         (py "patient", JObj [ (py "id", JStr (py "X")) ]) ].

Definition patient_other_doc : json :=
  JObj [ (py "metadata", JObj [ (py "transferTAN", JStr (py "9999")) ]);
         (py "submittedAt", JStr old_date) ].

Definition report_doc : json :=
  JObj [ (py "id", JStr tan2); (py "status", JStr (py "submitted")) ].

(** The listing of the input directory, in enumeration order. *)
Definition names : list pystr :=
  [ patient_name; py "notes.txt"; report_list; py "other.json";
    patient_other; py "MVH_MTBPatientRecord_Patient_dir.json";
    report_name ].

Definition files : list (pystr * json) :=
  [ (path_join indir patient_name, patient_doc);
    (path_join indir patient_other, patient_other_doc);
    (path_join indir report_list, JArr []);
    (path_join indir report_name, report_doc);
    (path_join indir (py "other.json"), JObj []) ].

Definition load (files : list (pystr * json)) (p : pystr) : load_result :=
  match dict_lookup p files with
  | Some data => Loaded data
  | None => LoadRaises OSError
  end.

(** The installation, given the content of the input files, how the
    reading of the table ends and what a write does. *)
Definition world_with (files : list (pystr * json))
    (failure : option exception) (write : option exception) : world :=
  {| w_isfile p :=
       bool_decide (p = cfg) || bool_decide (is_Some (dict_lookup p files));
     w_isdir p := bool_decide (p = indir) || bool_decide (p = outdir);
     w_csv p := {| csv_rows := rows; csv_failure := failure |};
     w_listdir p :=
       if bool_decide (p = indir) then inr names else inl OSError;
     w_load := load files;
     w_write p data := write |}.

(** All goes well, but one submission report holds a JSON array. *)
Definition w : world := world_with files None None.

(** The same, without the submission report that holds an array. *)
Definition files_ok : list (pystr * json) :=
  [ (path_join indir patient_name, patient_doc);
    (path_join indir patient_other, patient_other_doc);
    (path_join indir report_name, report_doc) ].
Definition w_ok : world := world_with files_ok None None.

(** Reading the table fails after the rows were read. *)
Definition w_csv_fails : world :=
  world_with files_ok (Some UnicodeDecodeError) None.

(** The output directory cannot be written. *)
Definition w_read_only : world := world_with files_ok None (Some OSError).

(** A patient record whose [transferTAN] is a JSON array. *)
Definition patient_array_tan : json :=
  JObj [ (py "metadata",
          JObj [ (py "transferTAN", JArr [ JStr tan1 ]) ]) ].
Definition w_array_tan : world :=
  world_with [ (path_join indir patient_name, patient_array_tan);
               (path_join indir report_name, report_doc) ] None None.

(** A submission report whose [id] is the number 0, and the same report
    without [id]. *)
Definition report_zero : json :=
  JObj [ (py "id", JInt 0); (py "status", JStr (py "submitted")) ].
Definition w_zero : world :=
  world_with [ (path_join indir report_name, report_zero) ] None None.
Definition w_no_id : world :=
  world_with
    [ (path_join indir report_name, without_identifier KindB report_zero) ]
    None None.

End Ex.

(** The paths whose write failed, in a trace. *)
Definition failed (tr : list event) : list pystr :=
  flat_map (λ e, match e with WriteFailed p => [p] | _ => [] end) tr.

(** The diagnostic of a patcher for a file it could not load. *)
Definition load_error (filepath : pystr) (e : exception) : message :=
  match e with
  | JSONDecodeError => NotValidJson filepath
  | _ => ErrorReadingFile filepath e
  end.

(** A value no patcher can look up: a non-empty array or object. *)
Definition unhashable (v : json) : Prop :=
  (∃ x items, v = JArr (x :: items)) ∨ (∃ x fields, v = JObj (x :: fields)).

(** A number or boolean with a true truth value. *)
Definition truthy_scalar (v : json) : Prop :=
  truthy v = true ∧
  ((∃ b, v = JBool b) ∨ (∃ n, v = JInt n) ∨ (∃ f, v = JFloat f)).

(** ** More installations *)

Module Ex2.

(** No input file holds valid JSON. *)
Definition w_bad_json : world :=
  {| w_isfile := w_isfile Ex.w_ok;
     w_isdir := w_isdir Ex.w_ok;
     w_csv := w_csv Ex.w_ok;
     w_listdir := w_listdir Ex.w_ok;
     w_load p := LoadRaises JSONDecodeError;
     w_write := w_write Ex.w_ok |}.

(** The submission report of the example, once patched. *)
Definition report_patched : json :=
  JObj [ (py "id", JStr Ex.tan2);
         (py "status", JStr (py "submitted"));
         (py "createdAt", JStr Ex.date2) ].

(** The output of a first run is the input of a second one. *)
Definition w_second : world :=
  Ex.world_with [ (path_join Ex.indir Ex.report_name, report_patched) ]
    None None.

(** A submission report whose [id] is the number 7. *)
Definition report_seven : json :=
  JObj [ (py "id", JInt 7); (py "status", JStr (py "submitted")) ].
Definition w_seven : world :=
  Ex.world_with [ (path_join Ex.indir Ex.report_name, report_seven) ]
    None None.

(** A submission report whose [id] starts with a space. *)
Definition report_untrimmed : json :=
  JObj [ (py "id", JStr (py " EF56")); (py "status", JStr (py "submitted")) ].
Definition w_untrimmed : world :=
  Ex.world_with [ (path_join Ex.indir Ex.report_name, report_untrimmed) ]
    None None.

(** The input directory is there but cannot be listed. *)
Definition args_unlistable : arguments :=
  {| config := Ex.cfg; in_dir := Ex.outdir; out_dir := Ex.outdir |}.

(** The input directory is missing. *)
Definition args_no_input : arguments :=
  {| config := Ex.cfg; in_dir := py "missing"; out_dir := Ex.outdir |}.

End Ex2.

(** * Properties *)

(** ** The monad *)

Lemma bind_ret_trace {A B} (m : M A) (f : A → M B) tr a :
  m = (tr, inr a) → m ≫= f = (tr ++ (f a).1, (f a).2).
Proof. intros ->. unfold mbind, M_bind. by destruct (f a). Qed.

Lemma bind_raise {A B} (m : M A) (f : A → M B) tr e :
  m = (tr, inl e) → m ≫= f = (tr, inl e).
Proof. by intros ->. Qed.

(** ** Strings *)

Lemma str_truthy_true s : str_truthy s = true ↔ s ≠ [].
Proof. destruct s; simpl; split; (done || congruence). Qed.

Lemma str_truthy_false s : str_truthy s = false ↔ s = [].
Proof. destruct s; simpl; split; (done || congruence). Qed.

(** ** The correction table *)

(** What a row adds to the table, as a function. *)
Lemma add_row_contributes m row tan date :
  contributes row tan date → add_row m row = <[tan := date]> m.
Proof.
  intros (c0 & c1 & rest & -> & <- & <- & Ht & Hd). simpl.
  apply str_truthy_true in Ht, Hd. by rewrite Ht, Hd.
Qed.

Lemma add_row_cases m row :
  (∃ tan date, contributes row tan date ∧ add_row m row = <[tan := date]> m)
  ∨ (malformed row ∧ add_row m row = m).
Proof.
  destruct row as [|c0 [|c1 rest]].
  - right. split; [left; simpl; lia | done].
  - right. split; [left; simpl; lia | done].
  - simpl. destruct (str_truthy (strip c0)) eqn:H0;
      [destruct (str_truthy (strip c1)) eqn:H1|]; simpl.
    + left. exists (strip c0), (strip c1). split; [|done].
      exists c0, c1, rest. by rewrite <- !str_truthy_true.
    + right. split; [|done]. right. exists c0, c1, rest.
      split; [done|]. right. by apply str_truthy_false.
    + right. split; [|done]. right. exists c0, c1, rest.
      split; [done|]. left. by apply str_truthy_false.
Qed.

Lemma contributes_functional row tan date tan' date' :
  contributes row tan date → contributes row tan' date' →
  tan = tan' ∧ date = date'.
Proof.
  intros (c0 & c1 & rest & -> & <- & <- & _) (? & ? & ? & [= <- <- <-] & <- & <- & _).
  done.
Qed.

Lemma malformed_not_contributes row tan date :
  malformed row → ¬ contributes row tan date.
Proof.
  intros [Hlen | (c0 & c1 & rest & -> & Hc)] (? & ? & ? & Hrow & H0 & H1 & ? & ?).
  - subst row. simpl in Hlen. lia.
  - injection Hrow as <- <- <-. destruct Hc; congruence.
Qed.

Lemma add_row_malformed m row : malformed row → add_row m row = m.
Proof.
  intros Hm. destruct (add_row_cases m row) as [(t & d & Hc & _) | [_ ?]];
    [|done].
  by destruct (malformed_not_contributes row t d).
Qed.

Lemma read_rows_snoc rows row :
  read_rows (rows ++ [row]) = add_row (read_rows rows) row.
Proof. apply foldl_snoc. Qed.

(** A key of the table comes from the last row that contributes it. *)
Lemma read_rows_lookup rows tan date :
  read_rows rows !! tan = Some date ↔
  ∃ before row after,
    rows = before ++ row :: after ∧ contributes row tan date ∧
    ∀ r d, r ∈ after → ¬ contributes r tan d.
Proof.
  revert date. induction rows as [|row rows IH] using rev_ind; intros date.
  - split; [unfold read_rows; simpl; by rewrite lookup_empty|].
    intros (before & r & after & Heq & _). by destruct before.
  - rewrite read_rows_snoc.
    destruct (add_row_cases (read_rows rows) row)
      as [(t & d & Hc & ->) | [Hm ->]].
    + destruct (decide (t = tan)) as [->|Hne].
      * rewrite lookup_insert_eq. split.
        -- intros [= <-]. exists rows, row, []. split_and!; [done..|].
           intros r d' Hr. by apply elem_of_nil in Hr.
        -- intros (before & r & after & Heq & Hr & Hlast).
           induction after as [|x after _] using rev_ind.
           ++ apply app_inj_tail in Heq as [_ <-].
              by destruct (contributes_functional _ _ _ _ _ Hc Hr) as [_ ->].
           ++ rewrite app_comm_cons, app_assoc in Heq.
              apply app_inj_tail in Heq as [_ <-].
              destruct (Hlast row d); [apply elem_of_app; right; constructor | done].
      * rewrite lookup_insert_ne by done. rewrite IH. split.
        -- intros (before & r & after & -> & Hr & Hlast).
           exists before, r, (after ++ [row]). split_and!.
           ++ by rewrite <- app_assoc.
           ++ done.
           ++ intros r' d' [Hin | ->%list_elem_of_singleton]%elem_of_app.
              ** by apply Hlast.
              ** intros Hc'.
                 by destruct (contributes_functional _ _ _ _ _ Hc Hc').
        -- intros (before & r & after & Heq & Hr & Hlast).
           induction after as [|x after _] using rev_ind.
           ++ apply app_inj_tail in Heq as [_ <-].
              by destruct (contributes_functional _ _ _ _ _ Hc Hr).
           ++ rewrite app_comm_cons, app_assoc in Heq.
              apply app_inj_tail in Heq as [-> <-].
              exists before, r, after. split_and!; [done..|].
              intros r' d' Hin. apply Hlast, elem_of_app. by left.
    + rewrite IH. split.
      * intros (before & r & after & -> & Hr & Hlast).
        exists before, r, (after ++ [row]). split_and!.
        -- by rewrite <- app_assoc.
        -- done.
        -- intros r' d' [Hin | ->%list_elem_of_singleton]%elem_of_app.
           ++ by apply Hlast.
           ++ by apply malformed_not_contributes.
      * intros (before & r & after & Heq & Hr & Hlast).
        induction after as [|x after _] using rev_ind.
        -- apply app_inj_tail in Heq as [_ <-].
           by destruct (malformed_not_contributes _ _ _ Hm Hr).
        -- rewrite app_comm_cons, app_assoc in Heq.
           apply app_inj_tail in Heq as [-> <-].
           exists before, r, after. split_and!; [done..|].
           intros r' d' Hin. apply Hlast, elem_of_app. by left.
Qed.

(** A malformed row changes nothing, wherever it stands. *)
Lemma read_rows_skip before row after :
  malformed row →
  read_rows (before ++ row :: after) = read_rows (before ++ after).
Proof.
  intros Hm. unfold read_rows. rewrite !foldl_app. simpl.
  by rewrite add_row_malformed.
Qed.

(** The keys of a loaded table are never empty. *)
Lemma read_rows_key_nonempty rows date : read_rows rows !! [] ≠ Some date.
Proof.
  intros (before & row & after & _ & (? & ? & ? & _ & _ & _ & Hne & _) & _)
    %read_rows_lookup.
  done.
Qed.

(** C4. When the table file reads without error, the loaded table maps an
    identifier to a timestamp exactly when some row contributes that pair
    (at least two fields, both non-empty after trimming) and no later row
    contributes the same identifier: the last one wins.  A malformed row
    (fewer than two fields, or an empty identifier or timestamp after
    trimming) is skipped: the table is the one loaded from the same file
    without that row. *)
Theorem parse_config_file_table (w : world) (config_path : pystr) :
  csv_failure (w_csv w config_path) = None →
  ∃ tan_date_map,
    parse_config_file w config_path = ([], inr tan_date_map) ∧
    (∀ tan date,
       tan_date_map !! tan = Some date ↔
       ∃ before row after,
         csv_rows (w_csv w config_path) = before ++ row :: after ∧
         contributes row tan date ∧
         ∀ r d, r ∈ after → ¬ contributes r tan d) ∧
    (∀ before row after w' config_path',
       csv_rows (w_csv w config_path) = before ++ row :: after →
       malformed row →
       csv_rows (w_csv w' config_path') = before ++ after →
       csv_failure (w_csv w' config_path') = None →
       parse_config_file w' config_path' = ([], inr tan_date_map)).
Proof.
  intros Hok. exists (read_rows (csv_rows (w_csv w config_path))).
  split_and!.
  - unfold parse_config_file. by rewrite Hok.
  - intros tan date. apply read_rows_lookup.
  - intros before row after w' path' Hrows Hm Hrows' Hok'.
    unfold parse_config_file. rewrite Hok', Hrows', Hrows.
    by rewrite read_rows_skip.
Qed.

Lemma parse_config_file_table_witness :
  ∃ tan_date_map,
    parse_config_file Ex.w Ex.cfg = ([], inr tan_date_map) ∧
    (∀ tan date,
       tan_date_map !! tan = Some date ↔
       ∃ before row after,
         csv_rows (w_csv Ex.w Ex.cfg) = before ++ row :: after ∧
         contributes row tan date ∧
         ∀ r d, r ∈ after → ¬ contributes r tan d) ∧
    (∀ before row after w' config_path',
       csv_rows (w_csv Ex.w Ex.cfg) = before ++ row :: after →
       malformed row →
       csv_rows (w_csv w' config_path') = before ++ after →
       csv_failure (w_csv w' config_path') = None →
       parse_config_file w' config_path' = ([], inr tan_date_map)).
Proof. exact (parse_config_file_table Ex.w Ex.cfg eq_refl). Defined.

(** The table of the example: the later row for [ABCD1234] wins, and the
    rows with one field or an empty timestamp leave no entry. *)
Example read_rows_example :
  read_rows Ex.rows !! Ex.tan1 = Some Ex.date1 ∧
  read_rows Ex.rows !! Ex.tan2 = Some Ex.date2 ∧
  read_rows Ex.rows !! py "0000" = None ∧
  read_rows Ex.rows !! py "only-one-field" = None ∧
  size (read_rows Ex.rows) = 2%nat.
Proof. by vm_compute. Qed.

(** ** The orchestrator's preconditions *)

Lemma main_valid_table w a tr :
  validate_paths w (config a) (in_dir a) (out_dir a) = (tr, inr false) →
  main w a = (tr, inl (SystemExit 1)).
Proof. intros H. unfold main. rewrite H. simpl. by rewrite app_nil_r. Qed.

Lemma validate_paths_cases w c i o :
  (∃ m, validate_paths w c i o = ([Stderr m], inr false)) ∨
  validate_paths w c i o = ([], inr true).
Proof.
  unfold validate_paths.
  destruct (w_isfile w c); simpl; [|left; by eexists].
  destruct (w_isdir w i); simpl; [|left; by eexists].
  destruct (w_isdir w o); simpl; [by right | left; by eexists].
Qed.

(** C9. When reading the table file raises, at whatever row, the loader
    reports it and returns the empty table, whatever rows were read before;
    [main] then exits with status 1 and no record is touched. *)
Theorem parse_config_file_failure (w : world) (a : arguments) (e : exception) :
  csv_failure (w_csv w (config a)) = Some e →
  parse_config_file w (config a) = ([Stderr (ErrorReadingConfig e)], inr ∅) ∧
  (main w a).2 = inl (SystemExit 1) ∧
  exit_status (main w a).2 = 1 ∧
  ∀ ev, ev ∈ (main w a).1 → ∃ m, ev = Stderr m.
Proof.
  intros Hfail.
  assert (Hparse : parse_config_file w (config a)
                   = ([Stderr (ErrorReadingConfig e)], inr ∅)).
  { unfold parse_config_file. by rewrite Hfail. }
  split; [done|].
  destruct (validate_paths_cases w (config a) (in_dir a) (out_dir a))
    as [[m Hv] | Hv].
  - rewrite (main_valid_table _ _ _ Hv). simpl. split_and!; [done..|].
    intros ev ->%list_elem_of_singleton. by eexists.
  - unfold main. rewrite Hv. simpl. rewrite Hparse. simpl.
    split_and!; [done..|].
    intros ev Hev. apply elem_of_cons in Hev as [-> | Hev]; [by eexists|].
    apply list_elem_of_singleton in Hev as ->. by eexists.
Qed.

Lemma parse_config_file_failure_witness :
  parse_config_file Ex.w_csv_fails Ex.cfg
    = ([Stderr (ErrorReadingConfig UnicodeDecodeError)], inr ∅) ∧
  (main Ex.w_csv_fails Ex.args).2 = inl (SystemExit 1) ∧
  exit_status (main Ex.w_csv_fails Ex.args).2 = 1 ∧
  ∀ ev, ev ∈ (main Ex.w_csv_fails Ex.args).1 → ∃ m, ev = Stderr m.
Proof.
  exact (parse_config_file_failure Ex.w_csv_fails Ex.args UnicodeDecodeError
           eq_refl).
Defined.

(** ** The classifier *)

(** The two prefixes start with different letters. *)
Lemma prefixes_disjoint filename :
  startswith filename patient_prefix = true →
  startswith filename report_prefix = false.
Proof.
  destruct filename as [|c filename]; [done|].
  assert (patient_prefix = 77%N :: tail patient_prefix) as -> by reflexivity.
  assert (report_prefix = 83%N :: tail report_prefix) as -> by reflexivity.
  cbn [startswith].
  destruct (N.eqb_spec 77 c) as [<-|]; cbn [andb]; [reflexivity | discriminate].
Qed.

Lemma classify_step w in_dir prs srs f :
  classify w in_dir (prs, srs) f =
  (prs ++ (if kept w in_dir f && startswith f patient_prefix
           then [f] else []),
   srs ++ (if kept w in_dir f && startswith f report_prefix
           then [f] else [])).
Proof.
  unfold classify, kept.
  destruct (endswith f json_suffix); simpl; [|by rewrite !app_nil_r].
  destruct (w_isfile w (path_join in_dir f)); simpl; [|by rewrite !app_nil_r].
  destruct (startswith f patient_prefix) eqn:Hp.
  - by rewrite (prefixes_disjoint _ Hp), app_nil_r.
  - destruct (startswith f report_prefix); by rewrite !app_nil_r.
Qed.

Lemma classify_foldl w in_dir names prs srs :
  foldl (classify w in_dir) (prs, srs) names =
  (prs ++ List.filter
            (λ f, kept w in_dir f && startswith f patient_prefix) names,
   srs ++ List.filter
            (λ f, kept w in_dir f && startswith f report_prefix) names).
Proof.
  revert prs srs. induction names as [|f names IH]; intros prs srs.
  - simpl. by rewrite !app_nil_r.
  - cbn [foldl List.filter]. rewrite classify_step, IH.
    destruct (kept w in_dir f && startswith f patient_prefix),
      (kept w in_dir f && startswith f report_prefix);
      by rewrite <- ?app_assoc, ?app_nil_r.
Qed.

(** C6. From a directory listing the classifier keeps the regular files
    whose names end with [.json]; the Kind A list is the sublist of those
    that start with [MVH_MTBPatientRecord_Patient], the Kind B list the
    sublist of those that start with [SubmissionReport_Patient], both in
    enumeration order; every other entry is in neither list, and no entry
    is in both. *)
Theorem get_json_files_partition (w : world) (in_dir : pystr)
    (names : list pystr) :
  w_listdir w in_dir = inr names →
  ∃ patient_record_files submission_report_files,
    get_json_files w in_dir
      = ([], inr (patient_record_files, submission_report_files)) ∧
    patient_record_files
      = List.filter
          (λ f, kept w in_dir f && startswith f patient_prefix) names ∧
    submission_report_files
      = List.filter
          (λ f, kept w in_dir f && startswith f report_prefix) names ∧
    (∀ f, f ∈ patient_record_files → f ∉ submission_report_files) ∧
    (∀ f, f ∈ names →
       (kept w in_dir f = false ∨
        (startswith f patient_prefix = false ∧
         startswith f report_prefix = false)) →
       (f ∉ patient_record_files) ∧ (f ∉ submission_report_files)).
Proof.
  intros Hls. eexists _, _. split_and!; [|reflexivity|reflexivity|..].
  - unfold get_json_files. rewrite Hls. simpl. by rewrite classify_foldl.
  - intros f [_ Ha]%list_elem_of_In%filter_In [_ Hb]%list_elem_of_In%filter_In.
    apply andb_prop in Ha as [_ Ha], Hb as [_ Hb].
    by rewrite (prefixes_disjoint _ Ha) in Hb.
  - intros f _ Hf.
    split; intros [_ Hin]%list_elem_of_In%filter_In;
      apply andb_prop in Hin as [Hk Hp];
      destruct Hf as [Hf | [Hf1 Hf2]]; congruence.
Qed.

Lemma get_json_files_partition_witness :
  ∃ patient_record_files submission_report_files,
    get_json_files Ex.w Ex.indir
      = ([], inr (patient_record_files, submission_report_files)) ∧
    patient_record_files
      = List.filter
          (λ f, kept Ex.w Ex.indir f && startswith f patient_prefix)
          Ex.names ∧
    submission_report_files
      = List.filter
          (λ f, kept Ex.w Ex.indir f && startswith f report_prefix)
          Ex.names ∧
    (∀ f, f ∈ patient_record_files → f ∉ submission_report_files) ∧
    (∀ f, f ∈ Ex.names →
       (kept Ex.w Ex.indir f = false ∨
        (startswith f patient_prefix = false ∧
         startswith f report_prefix = false)) →
       (f ∉ patient_record_files) ∧ (f ∉ submission_report_files)).
Proof. exact (get_json_files_partition Ex.w Ex.indir Ex.names eq_refl). Defined.

(** On the example listing: [notes.txt] does not end with [.json],
    [other.json] has neither prefix, and
    [MVH_MTBPatientRecord_Patient_dir.json] is not a regular file. *)
Example get_json_files_example :
  get_json_files Ex.w Ex.indir
  = ([], inr ([Ex.patient_name; Ex.patient_other],
              [Ex.report_list; Ex.report_name])).
Proof. by vm_compute. Qed.

(** ** The patchers *)

(** Both patchers have one shape. *)
Lemma patcher_unfold k w filepath tan_date_map :
  patcher k w filepath tan_date_map =
  (emit (Patch k filepath);;
   loaded ← read_json w filepath;
   match loaded with
   | None => mret None
   | Some data =>
       tan ← lift (extract k data);
       if negb (truthy tan) then
         emit (Stderr (no_identifier k filepath));; mret None
       else
         found ← lift (py_contains tan_date_map tan);
         if negb found then mret None
         else
           new_date ← lift (py_getitem tan_date_map tan);
           data' ← lift (py_setitem data (patched_field k) (JStr new_date));
           mret (Some (tan, new_date, data'))
   end).
Proof. by destruct k. Qed.

Lemma patcher_load_raises k w filepath tan_date_map e :
  w_load w filepath = LoadRaises e →
  ∃ m, patcher k w filepath tan_date_map
       = ([Patch k filepath; Stderr m], inr None).
Proof.
  intros Hload. rewrite patcher_unfold. unfold read_json. rewrite Hload.
  destruct e; by eexists.
Qed.

Lemma patcher_extract_raises k w filepath tan_date_map data e :
  w_load w filepath = Loaded data →
  extract k data = inl e →
  patcher k w filepath tan_date_map = ([Patch k filepath], inl (Exc e)).
Proof.
  intros Hload He. rewrite patcher_unfold. unfold read_json.
  rewrite Hload. simpl. by rewrite He.
Qed.

Lemma patcher_falsy k w filepath tan_date_map data tan :
  w_load w filepath = Loaded data →
  extract k data = inr tan →
  truthy tan = false →
  patcher k w filepath tan_date_map
  = ([Patch k filepath; Stderr (no_identifier k filepath)], inr None).
Proof.
  intros Hload He Ht. rewrite patcher_unfold. unfold read_json.
  rewrite Hload. simpl. rewrite He. simpl. by rewrite Ht.
Qed.

Lemma patcher_unhashable k w filepath tan_date_map data tan e :
  w_load w filepath = Loaded data →
  extract k data = inr tan →
  truthy tan = true →
  py_contains tan_date_map tan = inl e →
  patcher k w filepath tan_date_map = ([Patch k filepath], inl (Exc e)).
Proof.
  intros Hload He Ht Hc. rewrite patcher_unfold. unfold read_json.
  rewrite Hload. simpl. rewrite He. simpl. rewrite Ht. simpl. by rewrite Hc.
Qed.

Lemma patcher_not_found k w filepath tan_date_map data tan :
  w_load w filepath = Loaded data →
  extract k data = inr tan →
  truthy tan = true →
  py_contains tan_date_map tan = inr false →
  patcher k w filepath tan_date_map = ([Patch k filepath], inr None).
Proof.
  intros Hload He Ht Hc. rewrite patcher_unfold. unfold read_json.
  rewrite Hload. simpl. rewrite He. simpl. rewrite Ht. simpl. by rewrite Hc.
Qed.

Lemma patcher_found k w filepath tan_date_map fields s date :
  w_load w filepath = Loaded (JObj fields) →
  extract k (JObj fields) = inr (JStr s) →
  s ≠ [] →
  tan_date_map !! s = Some date →
  patcher k w filepath tan_date_map
  = ([Patch k filepath],
     inr (Some (JStr s, date,
                JObj (dict_set (patched_field k) (JStr date) fields)))).
Proof.
  intros Hload He Hs Hd. rewrite patcher_unfold. unfold read_json.
  rewrite Hload. simpl. rewrite He. simpl.
  destruct s as [|c s]; [done|]. simpl. by rewrite Hd.
Qed.

(** The extraction finds a value other than [None] only in the identifier
    field of an object. *)
Lemma extract_identifier_field k data tan :
  extract k data = inr tan → tan ≠ JNull →
  ∃ fields, data = JObj fields ∧ identifier_field k data = Some tan.
Proof.
  destruct k, data as [| | | | | |fields]; simpl; try done;
    unfold transferTAN_of; simpl; try (intros [= <-]; done).
  - destruct (dict_lookup (py "metadata") fields) as [[| | | | | |meta]|];
      simpl; try (intros [= <-]; done).
    destruct (dict_lookup (py "transferTAN") meta); simpl;
      intros [= <-]; [eauto | done].
  - destruct (dict_lookup (py "id") fields); simpl; intros [= <-];
      [eauto | done].
Qed.

Lemma identifier_field_extract k data tan :
  identifier_field k data = Some tan → extract k data = inr tan.
Proof.
  destruct k, data as [| | | | | |fields]; simpl; try done;
    unfold transferTAN_of; simpl.
  - destruct (dict_lookup (py "metadata") fields) as [[| | | | | |meta]|];
      simpl; try done.
    by intros ->.
  - by intros ->.
Qed.

(** ** Dictionaries *)

Lemma dict_lookup_set_eq k v d : dict_lookup k (dict_set k v d) = Some v.
Proof.
  induction d as [|[k' v'] d IH]; simpl.
  - by rewrite decide_True.
  - destruct (decide (k' = k)) as [->|Hne]; simpl.
    + by rewrite decide_True.
    + by rewrite decide_False.
Qed.

Lemma dict_lookup_set_ne k k' v d :
  k ≠ k' → dict_lookup k' (dict_set k v d) = dict_lookup k' d.
Proof.
  intros Hne. induction d as [|[k0 v0] d IH]; simpl.
  - by rewrite decide_False.
  - destruct (decide (k0 = k)) as [->|Hne0]; simpl.
    + by rewrite !decide_False.
    + by rewrite IH.
Qed.

(** A new key goes to the end. *)
Lemma dict_set_absent k v d :
  dict_lookup k d = None → dict_set k v d = d ++ [(k, v)].
Proof.
  induction d as [|[k' v'] d IH]; simpl; [done|].
  destruct (decide (k' = k)); [done|]. intros H. by rewrite IH.
Qed.

(** An existing key keeps its place, and nothing else moves. *)
Lemma dict_set_present k v d old :
  dict_lookup k d = Some old →
  ∃ l1 l2,
    d = l1 ++ (k, old) :: l2 ∧ dict_lookup k l1 = None ∧
    dict_set k v d = l1 ++ (k, v) :: l2.
Proof.
  induction d as [|[k' v'] d IH]; simpl; [done|].
  destruct (decide (k' = k)) as [->|Hne].
  - intros [= ->]. by exists [], d.
  - intros (l1 & l2 & -> & Hl1 & ->)%IH.
    exists ((k', v') :: l1), l2. simpl. by rewrite decide_False.
Qed.

Lemma dict_lookup_remove k d : dict_lookup k (dict_remove k d) = None.
Proof.
  induction d as [|[k' v'] d IH]; simpl; [done|].
  destruct (decide (k' = k)) as [->|Hne]; simpl; [done|].
  by rewrite decide_False.
Qed.

Lemma dict_lookup_remove_ne k k' d :
  k ≠ k' → dict_lookup k' (dict_remove k d) = dict_lookup k' d.
Proof.
  intros Hne. induction d as [|[k0 v0] d IH]; simpl; [done|].
  destruct (decide (k0 = k)) as [->|Hne0]; simpl.
  - by rewrite decide_False.
  - by rewrite IH.
Qed.

(** A record without its identifier field has none. *)
Lemma identifier_field_without k data :
  identifier_field k (without_identifier k data) = None.
Proof.
  destruct k, data as [| | | | | |fields]; simpl; try done.
  - destruct (dict_lookup (py "metadata") fields)
      as [[| | | | | |meta]|] eqn:Hm; simpl; rewrite ?Hm; try done.
    by rewrite dict_lookup_set_eq, dict_lookup_remove.
  - apply dict_lookup_remove.
Qed.

(** The keys of a table that [parse_config_file] returned are not empty. *)
Lemma parse_config_file_key w config_path tr tan_date_map tan date :
  parse_config_file w config_path = (tr, inr tan_date_map) →
  tan_date_map !! tan = Some date → tan ≠ [].
Proof.
  unfold parse_config_file.
  destruct (csv_failure (w_csv w config_path)); simpl; intros [= _ <-].
  - by rewrite lookup_empty.
  - intros H ->. by apply read_rows_key_nonempty in H.
Qed.

(** C3. When the [metadata.transferTAN] of a Kind A document has an entry
    in the correction table, Patch Kind A returns the identifier, the
    table's timestamp and the document with its top-level [submittedAt]
    set to that timestamp: the field is replaced where it stands, or added
    at the end when it is missing, and every other field is as it was. *)
Theorem process_patient_record_frame (w : world) (config_path filepath : pystr)
    (tr : list event) (tan_date_map : gmap pystr pystr)
    (fields : list (pystr * json)) (tan date : pystr) :
  parse_config_file w config_path = (tr, inr tan_date_map) →
  w_load w filepath = Loaded (JObj fields) →
  identifier_field KindA (JObj fields) = Some (JStr tan) →
  tan_date_map !! tan = Some date →
  ∃ fields',
    process_patient_record w filepath tan_date_map
    = ([Patch KindA filepath], inr (Some (JStr tan, date, JObj fields'))) ∧
    dict_lookup (py "submittedAt") fields' = Some (JStr date) ∧
    (∀ k, k ≠ py "submittedAt" → dict_lookup k fields' = dict_lookup k fields) ∧
    match dict_lookup (py "submittedAt") fields with
    | None => fields' = fields ++ [(py "submittedAt", JStr date)]
    | Some old =>
        ∃ l1 l2,
          fields = l1 ++ (py "submittedAt", old) :: l2 ∧
          dict_lookup (py "submittedAt") l1 = None ∧
          fields' = l1 ++ (py "submittedAt", JStr date) :: l2
    end.
Proof.
  intros Hcfg Hload Hid Hdate.
  exists (dict_set (py "submittedAt") (JStr date) fields). split_and!.
  - apply (patcher_found KindA); [done | | | done].
    + by apply identifier_field_extract.
    + by eapply parse_config_file_key.
  - apply dict_lookup_set_eq.
  - intros k Hk. by apply dict_lookup_set_ne.
  - destruct (dict_lookup (py "submittedAt") fields) as [old|] eqn:Hold.
    + by apply dict_set_present.
    + by apply dict_set_absent.
Qed.

Lemma process_patient_record_frame_witness :
  ∃ fields',
    process_patient_record Ex.w (path_join Ex.indir Ex.patient_name)
      (read_rows Ex.rows)
    = ([Patch KindA (path_join Ex.indir Ex.patient_name)],
       inr (Some (JStr Ex.tan1, Ex.date1, JObj fields'))) ∧
    dict_lookup (py "submittedAt") fields' = Some (JStr Ex.date1) ∧
    (∀ k, k ≠ py "submittedAt" →
          dict_lookup k fields'
          = dict_lookup k
              [ (py "metadata", JObj [ (py "transferTAN", JStr Ex.tan1) ]);
                (py "submittedAt", JStr Ex.old_date);
                (py "patient", JObj [ (py "id", JStr (py "X")) ]) ]) ∧
    ∃ l1 l2,
      [ (py "metadata", JObj [ (py "transferTAN", JStr Ex.tan1) ]);
        (py "submittedAt", JStr Ex.old_date);
        (py "patient", JObj [ (py "id", JStr (py "X")) ]) ]
      = l1 ++ (py "submittedAt", JStr Ex.old_date) :: l2 ∧
      dict_lookup (py "submittedAt") l1 = None ∧
      fields' = l1 ++ (py "submittedAt", JStr Ex.date1) :: l2.
Proof.
  exact (process_patient_record_frame Ex.w Ex.cfg
           (path_join Ex.indir Ex.patient_name) [] (read_rows Ex.rows)
           _ Ex.tan1 Ex.date1
           ltac:(vm_compute; reflexivity) ltac:(vm_compute; reflexivity)
           ltac:(vm_compute; reflexivity) ltac:(vm_compute; reflexivity)).
Defined.

(** The end-to-end example of the specification: only [submittedAt]
    changes. *)
Example process_patient_record_example :
  (process_patient_record Ex.w (path_join Ex.indir Ex.patient_name)
     (read_rows Ex.rows)).2
  = inr (Some (JStr Ex.tan1, Ex.date1,
     JObj [ (py "metadata", JObj [ (py "transferTAN", JStr Ex.tan1) ]);
            (py "submittedAt", JStr Ex.date1);
            (py "patient", JObj [ (py "id", JStr (py "X")) ]) ])).
Proof. by vm_compute. Qed.

(** ** The loop bodies of [main] *)

Lemma loop_body_unfold k w a tan_date_map counts filename :
  loop_body k w a tan_date_map counts filename =
  (result ← patcher k w (path_join (in_dir a) filename) tan_date_map;
   match result with
   | Some (tan, new_date, data) =>
       ok ← write_output_file w (out_dir a) filename data;
       if ok : bool then
         emit (Stdout (match k with
                       | KindA => FixedPatientRecord tan new_date
                       | KindB => FixedSubmissionReport tan new_date
                       end));;
         mret (counts.1 + 1, counts.2)
       else mret (counts.1, counts.2 + 1)
   | None => mret counts
   end).
Proof. by destruct k, counts. Qed.

(** No correction, no write: the body leaves the trace of the patcher. *)
Lemma loop_body_none k w a tan_date_map counts filename tr :
  patcher k w (path_join (in_dir a) filename) tan_date_map = (tr, inr None) →
  loop_body k w a tan_date_map counts filename = (tr, inr counts).
Proof.
  intros Hp. rewrite loop_body_unfold, Hp. simpl. by rewrite app_nil_r.
Qed.

Lemma loop_body_raises k w a tan_date_map counts filename tr e :
  patcher k w (path_join (in_dir a) filename) tan_date_map = (tr, inl e) →
  loop_body k w a tan_date_map counts filename = (tr, inl e).
Proof. intros Hp. by rewrite loop_body_unfold, Hp. Qed.

(** C10. For both patchers, a record whose identifier field holds a falsy
    value ([""], [0], [0.0], [false], [null], [{}] or [[]]) is handled as
    the same record without the field: the patcher prints its warning and
    returns no correction, and the loop body of [main] writes nothing and
    leaves the counters as they are. *)
Theorem falsy_identifier_as_absent (k : kind) (w w' : world) (a : arguments)
    (tan_date_map : gmap pystr pystr) (counts : Z * Z) (filename : pystr)
    (data v : json) :
  let filepath := path_join (in_dir a) filename in
  w_load w filepath = Loaded data →
  identifier_field k data = Some v →
  truthy v = false →
  w_load w' filepath = Loaded (without_identifier k data) →
  patcher k w filepath tan_date_map
  = ([Patch k filepath; Stderr (no_identifier k filepath)], inr None) ∧
  patcher k w' filepath tan_date_map = patcher k w filepath tan_date_map ∧
  loop_body k w a tan_date_map counts filename
  = ([Patch k filepath; Stderr (no_identifier k filepath)], inr counts) ∧
  loop_body k w' a tan_date_map counts filename
  = loop_body k w a tan_date_map counts filename.
Proof.
  intros filepath Hload Hid Hfalsy Hload'.
  assert (H1 : patcher k w filepath tan_date_map
          = ([Patch k filepath; Stderr (no_identifier k filepath)], inr None)).
  { eapply patcher_falsy; [done | by apply identifier_field_extract | done]. }
  assert (H2 : patcher k w' filepath tan_date_map
          = ([Patch k filepath; Stderr (no_identifier k filepath)], inr None)).
  { destruct (extract k (without_identifier k data)) as [e|tan] eqn:He.
    - exfalso. clear -He Hid.
      destruct k, data as [| | | | | |fields]; simpl in *; try done.
      unfold transferTAN_of in He. simpl in He.
      destruct (dict_lookup (py "metadata") fields)
        as [[| | | | | |meta]|]; simpl in *; try done.
      by rewrite dict_lookup_set_eq in He.
    - eapply patcher_falsy; [done.. |].
      destruct tan; try done;
        apply extract_identifier_field in He as (? & _ & He); try done;
        by rewrite identifier_field_without in He. }
  split_and!; [done | congruence | by apply loop_body_none |].
  by rewrite (loop_body_none k w' a _ counts filename _ H2),
    (loop_body_none k w a _ counts filename _ H1).
Qed.

Lemma falsy_identifier_as_absent_witness :
  patcher KindB Ex.w_zero (path_join Ex.indir Ex.report_name)
    (read_rows Ex.rows)
  = ([Patch KindB (path_join Ex.indir Ex.report_name);
      Stderr (NoId (path_join Ex.indir Ex.report_name))], inr None) ∧
  patcher KindB Ex.w_no_id (path_join Ex.indir Ex.report_name)
    (read_rows Ex.rows)
  = patcher KindB Ex.w_zero (path_join Ex.indir Ex.report_name)
      (read_rows Ex.rows) ∧
  loop_body KindB Ex.w_zero Ex.args (read_rows Ex.rows) (0, 0) Ex.report_name
  = ([Patch KindB (path_join Ex.indir Ex.report_name);
      Stderr (NoId (path_join Ex.indir Ex.report_name))], inr (0, 0)) ∧
  loop_body KindB Ex.w_no_id Ex.args (read_rows Ex.rows) (0, 0) Ex.report_name
  = loop_body KindB Ex.w_zero Ex.args (read_rows Ex.rows) (0, 0)
      Ex.report_name.
Proof.
  exact (falsy_identifier_as_absent KindB Ex.w_zero Ex.w_no_id Ex.args
           (read_rows Ex.rows) (0, 0) Ex.report_name Ex.report_zero (JInt 0)
           ltac:(vm_compute; reflexivity) ltac:(vm_compute; reflexivity)
           ltac:(vm_compute; reflexivity) ltac:(vm_compute; reflexivity)).
Defined.

(** The falsy JSON values. *)
Lemma truthy_false v :
  truthy v = false ↔
  v = JNull ∨ v = JBool false ∨ v = JInt 0 ∨ (∃ s, v = JFloat (S754_zero s)) ∨
  v = JStr [] ∨ v = JArr [] ∨ v = JObj [].
Proof.
  split.
  - destruct v as [|[]|n|[]|[]|[]|[]]; simpl; try done; eauto 10.
    intros ->%negb_false_iff%Z.eqb_eq. auto.
  - intros [->|[->|[->|[[s ->]|[->|[->| ->]]]]]]; done.
Qed.

(** The body of a loop after a correction: one write, counted as a
    modification or as an error. *)
Lemma loop_body_some k w a tan_date_map counts filename tr tan date data :
  patcher k w (path_join (in_dir a) filename) tan_date_map
  = (tr, inr (Some (tan, date, data))) →
  let out := path_join (out_dir a) filename in
  loop_body k w a tan_date_map counts filename =
  match w_write w out data with
  | None =>
      (tr ++ [WriteFile out data;
              Stdout (match k with
                      | KindA => FixedPatientRecord tan date
                      | KindB => FixedSubmissionReport tan date
                      end)],
       inr (counts.1 + 1, counts.2))
  | Some e =>
      (tr ++ [WriteFailed out; Stderr (ErrorWritingFile out e)],
       inr (counts.1, counts.2 + 1))
  end.
Proof.
  intros Hp out. subst out. rewrite loop_body_unfold, Hp.
  unfold write_output_file. simpl.
  by destruct (w_write w (path_join (out_dir a) filename) data).
Qed.

(** What a patcher can do: either it produces no correction, and its only
    file operation is the opening of the record; or the record is an object
    whose identifier is a non-empty string of the table, and the correction
    is the object with the patched field set. *)
Lemma patcher_cases k w filepath tan_date_map :
  (∃ tr r,
     patcher k w filepath tan_date_map = (Patch k filepath :: tr, r) ∧
     file_ops tr = [] ∧ written tr = [] ∧
     (r = inr None ∨ ∃ e, r = inl (Exc e))) ∨
  (∃ fields s date,
     w_load w filepath = Loaded (JObj fields) ∧
     identifier_field k (JObj fields) = Some (JStr s) ∧ s ≠ [] ∧
     tan_date_map !! s = Some date ∧
     patcher k w filepath tan_date_map
     = ([Patch k filepath],
        inr (Some (JStr s, date,
                   JObj (dict_set (patched_field k) (JStr date) fields))))).
Proof.
  destruct (w_load w filepath) as [e|data] eqn:Hload.
  { left. destruct (patcher_load_raises k _ _ tan_date_map _ Hload) as [m ->].
    eexists _, _. split_and!; [done..|]. by left. }
  destruct (extract k data) as [e|tan] eqn:He.
  { left. rewrite (patcher_extract_raises _ _ _ _ _ _ Hload He).
    eexists _, _. split_and!; [done..|]. right. by eexists. }
  destruct (truthy tan) eqn:Ht.
  2:{ left. rewrite (patcher_falsy _ _ _ _ _ _ Hload He Ht).
      eexists _, _. split_and!; [done..|]. by left. }
  destruct (py_contains tan_date_map tan) as [e|[]] eqn:Hc.
  { left. rewrite (patcher_unhashable _ _ _ _ _ _ _ Hload He Ht Hc).
    eexists _, _. split_and!; [done..|]. right. by eexists. }
  2:{ left. rewrite (patcher_not_found _ _ _ _ _ _ Hload He Ht Hc).
      eexists _, _. split_and!; [done..|]. by left. }
  right. destruct tan as [| | | |s| |]; simpl in Hc; try done.
  injection Hc as Hc. apply bool_decide_eq_true in Hc as [date Hdate].
  destruct (extract_identifier_field _ _ _ He) as (fields & -> & Hid); [done|].
  assert (s ≠ []) by (by destruct s).
  exists fields, s, date. split_and!; [done..|].
  by apply patcher_found.
Qed.

Lemma written_elem tr p d : (p, d) ∈ written tr ↔ WriteFile p d ∈ tr.
Proof.
  induction tr as [|e tr IH]; simpl.
  - by rewrite !elem_of_nil.
  - rewrite elem_of_app, elem_of_cons, IH.
    destruct e; simpl; rewrite ?elem_of_nil, ?list_elem_of_singleton;
      intuition congruence.
Qed.

(** C2, as the code has it.  In the loop body of [main], for a table that
    the loader returned: the record is written to the output directory, under
    its own name, exactly when it is an object whose identifier is found in
    the table and the write succeeds, and what is written is the record with
    the patched field set to the table's timestamp.  A record whose
    identifier is a non-empty string that is not in the table is skipped
    silently: nothing is printed, written or counted. *)
Theorem loop_body_writes (k : kind) (w : world) (a : arguments)
    (config_path : pystr) (tr0 : list event)
    (tan_date_map : gmap pystr pystr) (counts : Z * Z) (filename : pystr) :
  parse_config_file w config_path = (tr0, inr tan_date_map) →
  let filepath := path_join (in_dir a) filename in
  let out := path_join (out_dir a) filename in
  let run := loop_body k w a tan_date_map counts filename in
  (∀ p d,
     WriteFile p d ∈ run.1 ↔
     p = out ∧
     ∃ fields tan date,
       w_load w filepath = Loaded (JObj fields) ∧
       identifier_field k (JObj fields) = Some (JStr tan) ∧
       tan_date_map !! tan = Some date ∧
       d = JObj (dict_set (patched_field k) (JStr date) fields) ∧
       w_write w out d = None) ∧
  (∀ data tan,
     w_load w filepath = Loaded data →
     identifier_field k data = Some (JStr tan) →
     tan ≠ [] →
     tan_date_map !! tan = None →
     run = ([Patch k filepath], inr counts)).
Proof.
  intros Hcfg filepath out run. split.
  - intros p d. split.
    + intros Hin.
      destruct (patcher_cases k w filepath tan_date_map)
        as [(tr & r & Hp & _ & Hw & Hr)
           |(fields & s & date & Hload & Hid & Hs & Hdate & Hp)].
      * exfalso.
        assert (run.1 = Patch k filepath :: tr) as Hrun.
        { subst run. destruct Hr as [-> | [e ->]].
          - by rewrite (loop_body_none _ _ _ _ _ _ _ Hp).
          - by rewrite (loop_body_raises _ _ _ _ _ _ _ _ Hp). }
        rewrite Hrun in Hin. apply elem_of_cons in Hin as [? | Hin]; [done|].
        apply written_elem in Hin. rewrite Hw in Hin.
        by apply elem_of_nil in Hin.
      * subst run. rewrite (loop_body_some _ _ _ _ _ _ _ _ _ _ Hp) in Hin.
        fold out in Hin.
        destruct (w_write w out _) as [e|] eqn:Hwrite; simpl in Hin.
        -- repeat (apply elem_of_cons in Hin as [? | Hin]; [done|]).
           by apply elem_of_nil in Hin.
        -- apply elem_of_cons in Hin as [? | Hin]; [done|].
           apply elem_of_cons in Hin as [[= -> ->] | Hin].
           ++ split; [done|]. by exists fields, s, date.
           ++ apply elem_of_cons in Hin as [? | Hin]; [done|].
              by apply elem_of_nil in Hin.
    + intros (-> & fields & tan & date & Hload & Hid & Hdate & -> & Hwrite).
      assert (tan ≠ []) as Htan by by eapply parse_config_file_key.
      pose proof (patcher_found k w filepath tan_date_map fields tan date
                    Hload (identifier_field_extract _ _ _ Hid) Htan Hdate)
        as Hp.
      subst run. rewrite (loop_body_some _ _ _ _ _ _ _ _ _ _ Hp).
      fold out. rewrite Hwrite. simpl. apply elem_of_cons. right.
      apply elem_of_cons. by left.
  - intros data tan Hload Hid Htan Hnone. subst run.
    apply loop_body_none.
    eapply patcher_not_found;
      [done | by apply identifier_field_extract | by destruct tan |].
    simpl. rewrite Hnone. by rewrite bool_decide_eq_false_2 by by intros [].
Qed.

Lemma loop_body_writes_witness :
  parse_config_file Ex.w_ok Ex.cfg = ([], inr (read_rows Ex.rows)) ∧
  WriteFile (path_join Ex.outdir Ex.patient_name)
    (JObj [ (py "metadata", JObj [ (py "transferTAN", JStr Ex.tan1) ]);
            (py "submittedAt", JStr Ex.date1);
            (py "patient", JObj [ (py "id", JStr (py "X")) ]) ])
  ∈ (loop_body KindA Ex.w_ok Ex.args (read_rows Ex.rows) (0, 0)
       Ex.patient_name).1.
Proof.
  split; [vm_compute; reflexivity|].
  pose proof (loop_body_writes KindA Ex.w_ok Ex.args Ex.cfg []
                (read_rows Ex.rows) (0, 0) Ex.patient_name
                ltac:(vm_compute; reflexivity)) as [Hiff _].
  apply Hiff. split; [reflexivity|].
  eexists _, Ex.tan1, Ex.date1.
  split_and!; vm_compute; reflexivity.
Defined.

(** C2 does not hold as it is written: in this run the identifier of the
    patient record is found in the table and the record is patched, but the
    output directory cannot be written, and no record is written. *)
Lemma written_iff_in_table_counterexample :
  w_load Ex.w_read_only (path_join Ex.indir Ex.patient_name)
  = Loaded Ex.patient_doc ∧
  identifier_field KindA Ex.patient_doc = Some (JStr Ex.tan1) ∧
  (parse_config_file Ex.w_read_only Ex.cfg).2 = inr (read_rows Ex.rows) ∧
  read_rows Ex.rows !! Ex.tan1 = Some Ex.date1 ∧
  Patch KindA (path_join Ex.indir Ex.patient_name)
  ∈ (main Ex.w_read_only Ex.args).1 ∧
  (∀ p d, WriteFile p d ∉ (main Ex.w_read_only Ex.args).1) ∧
  (main Ex.w_read_only Ex.args).2 = inr tt.
Proof.
  split_and!; try (vm_compute; reflexivity).
  - apply list_elem_of_In. vm_compute. tauto.
  - intros p d Hin%written_elem. vm_compute in Hin.
    by apply elem_of_nil in Hin.
Qed.

(** ** The order of the file operations *)

Lemma file_ops_app tr1 tr2 : file_ops (tr1 ++ tr2) = file_ops tr1 ++ file_ops tr2.
Proof. apply List.filter_app. Qed.

(** The loop body does for a file what is prescribed, also when it raises. *)
Lemma loop_body_ops k w a tan_date_map counts filename :
  file_ops (loop_body k w a tan_date_map counts filename).1
  = file_schedule k w a tan_date_map filename.
Proof.
  unfold file_schedule.
  destruct (patcher_cases k w (path_join (in_dir a) filename) tan_date_map)
    as [(tr & r & Hp & Hops & _ & Hr)
       |(fields & s & date & _ & _ & _ & _ & Hp)].
  - rewrite Hp. destruct Hr as [-> | [e ->]]; simpl.
    + rewrite (loop_body_none _ _ _ _ _ _ _ Hp). simpl.
      fold (file_ops tr). by rewrite Hops.
    + rewrite (loop_body_raises _ _ _ _ _ _ _ _ Hp). simpl.
      fold (file_ops tr). by rewrite Hops.
  - rewrite (loop_body_some _ _ _ _ _ _ _ _ _ _ Hp), Hp. simpl.
    unfold write_op. by destruct (w_write w _ _).
Qed.

(** A loop does the prescribed operations of its files in list order: all
    of them when it ends, and those up to the file that raised otherwise. *)
Lemma kind_schedule_cons k w a tan_date_map f files :
  kind_schedule k w a tan_date_map (f :: files)
  = file_schedule k w a tan_date_map f ++
    kind_schedule k w a tan_date_map files.
Proof. reflexivity. Qed.

Lemma for_each_ops k w a tan_date_map files counts :
  let run := for_each files (loop_body k w a tan_date_map) counts in
  match run.2 with
  | inr _ => file_ops run.1 = kind_schedule k w a tan_date_map files
  | inl _ => file_ops run.1 `prefix_of` kind_schedule k w a tan_date_map files
  end.
Proof.
  revert counts. induction files as [|f files IH]; intros counts.
  { done. }
  rewrite kind_schedule_cons. cbn [for_each].
  pose proof (loop_body_ops k w a tan_date_map counts f) as Hf.
  destruct (loop_body k w a tan_date_map counts f) as [tr [e|counts']];
    cbn [fst snd mbind M_bind] in *.
  - rewrite Hf. by apply prefix_app_r.
  - specialize (IH counts').
    destruct (for_each files (loop_body k w a tan_date_map) counts')
      as [tr' [e|c]]; cbn [fst snd] in *; rewrite file_ops_app, Hf.
    + by apply prefix_app.
    + by rewrite IH.
Qed.

Lemma parse_config_file_trace w config_path tr tan_date_map :
  parse_config_file w config_path = (tr, inr tan_date_map) → file_ops tr = [].
Proof.
  unfold parse_config_file.
  by destruct (csv_failure (w_csv w config_path)); intros [= <- _].
Qed.

Lemma main_ops w a tr0 tan_date_map prs srs :
  parse_config_file w (config a) = (tr0, inr tan_date_map) →
  get_json_files w (in_dir a) = ([], inr (prs, srs)) →
  file_ops (main w a).1 `prefix_of` schedule w a tan_date_map prs srs ∧
  ((main w a).2 = inr tt →
   file_ops (main w a).1 = schedule w a tan_date_map prs srs).
Proof.
  intros Hcfg Hfiles.
  destruct (validate_paths_cases w (config a) (in_dir a) (out_dir a))
    as [[m Hv] | Hv].
  { rewrite (main_valid_table _ _ _ Hv). split; [apply prefix_nil | done]. }
  pose proof (parse_config_file_trace _ _ _ _ Hcfg) as Htr0.
  unfold main. rewrite Hv. simpl. rewrite Hcfg. simpl.
  destruct (bool_decide (tan_date_map = ∅)); simpl.
  { rewrite file_ops_app, Htr0. split; [apply prefix_nil | done]. }
  rewrite Hfiles. simpl.
  pose proof (for_each_ops KindA w a tan_date_map prs (0, 0)) as HA.
  change (loop_body KindA w a tan_date_map)
    with (patient_body w a tan_date_map) in HA.
  destruct (for_each prs (patient_body w a tan_date_map) (0, 0))
    as [trA [e|c]]; simpl in *.
  { rewrite file_ops_app, Htr0. simpl. fold (file_ops trA).
    split; [by apply prefix_app_r | done]. }
  pose proof (for_each_ops KindB w a tan_date_map srs c) as HB.
  change (loop_body KindB w a tan_date_map)
    with (report_body w a tan_date_map) in HB.
  destruct (for_each srs (report_body w a tan_date_map) c)
    as [trB [e|c']]; simpl in *.
  { rewrite !file_ops_app, Htr0. simpl. rewrite file_ops_app. 
    fold (file_ops trA). rewrite HA.
    split; [by apply prefix_app | done]. }
  destruct (0 <? c'.2); simpl; rewrite !file_ops_app, Htr0; simpl;
    rewrite !file_ops_app; simpl; rewrite ?app_nil_r, HA, HB; by split.
Qed.

Lemma prefix_app_split {A} (l s1 s2 : list A) :
  l `prefix_of` s1 ++ s2 →
  l `prefix_of` s1 ∨ ∃ l2, l = s1 ++ l2 ∧ l2 `prefix_of` s2.
Proof.
  revert l. induction s1 as [|x s1 IH]; intros l Hl.
  - right. by exists l.
  - destruct l as [|y l]; [left; apply prefix_nil|].
    simpl in Hl. pose proof (prefix_cons_inv_1 _ _ _ _ Hl) as ->.
    apply prefix_cons_inv_2, IH in Hl as [Hl | (l2 & -> & Hl2)].
    + left. by apply prefix_cons.
    + right. by exists l2.
Qed.

(** C7. The file operations of a run are those prescribed for the Kind A
    files, in list order, followed by those prescribed for the Kind B files,
    in list order, where the operations of a file are its patch, immediately
    followed by its write when the patcher produced a correction.  A run
    that an exception ends stops somewhere in this sequence; a Kind B file
    is touched only after all that is prescribed for Kind A was done. *)
Theorem main_order (w : world) (a : arguments) (tr0 : list event)
    (tan_date_map : gmap pystr pystr) (prs srs : list pystr) :
  parse_config_file w (config a) = (tr0, inr tan_date_map) →
  get_json_files w (in_dir a) = ([], inr (prs, srs)) →
  ∃ opsA opsB,
    file_ops (main w a).1 = opsA ++ opsB ∧
    opsA `prefix_of` kind_schedule KindA w a tan_date_map prs ∧
    opsB `prefix_of` kind_schedule KindB w a tan_date_map srs ∧
    (opsB ≠ [] → opsA = kind_schedule KindA w a tan_date_map prs) ∧
    ((main w a).2 = inr tt →
     opsA = kind_schedule KindA w a tan_date_map prs ∧
     opsB = kind_schedule KindB w a tan_date_map srs).
Proof.
  intros Hcfg Hfiles.
  destruct (main_ops w a tr0 tan_date_map prs srs Hcfg Hfiles)
    as [Hprefix Hall].
  destruct ((main w a).2) as [e|[]] eqn:Hres.
  - apply prefix_app_split in Hprefix as [HA | (opsB & Heq & HB)].
    + exists (file_ops (main w a).1), []. rewrite app_nil_r.
      split_and!; [done | done | apply prefix_nil | done | done].
    + exists (kind_schedule KindA w a tan_date_map prs), opsB.
      split_and!; done.
  - exists (kind_schedule KindA w a tan_date_map prs),
      (kind_schedule KindB w a tan_date_map srs).
    split_and!; [by apply Hall | done..].
Qed.

Lemma main_order_witness :
  ∃ opsA opsB,
    file_ops (main Ex.w_ok Ex.args).1 = opsA ++ opsB ∧
    opsA `prefix_of` kind_schedule KindA Ex.w_ok Ex.args (read_rows Ex.rows)
                       [Ex.patient_name; Ex.patient_other] ∧
    opsB `prefix_of` kind_schedule KindB Ex.w_ok Ex.args (read_rows Ex.rows)
                       [Ex.report_name] ∧
    (opsB ≠ [] →
     opsA = kind_schedule KindA Ex.w_ok Ex.args (read_rows Ex.rows)
              [Ex.patient_name; Ex.patient_other]) ∧
    ((main Ex.w_ok Ex.args).2 = inr tt →
     opsA = kind_schedule KindA Ex.w_ok Ex.args (read_rows Ex.rows)
              [Ex.patient_name; Ex.patient_other] ∧
     opsB = kind_schedule KindB Ex.w_ok Ex.args (read_rows Ex.rows)
              [Ex.report_name]).
Proof.
  exact (main_order Ex.w_ok Ex.args [] (read_rows Ex.rows)
           [Ex.patient_name; Ex.patient_other] [Ex.report_name]
           ltac:(vm_compute; reflexivity) ltac:(vm_compute; reflexivity)).
Defined.

(** The run of the example: both patient records are opened, and the one
    of the table is written, before the submission report is touched. *)
Example main_order_example :
  file_ops (main Ex.w_ok Ex.args).1
  = [ Patch KindA (path_join Ex.indir Ex.patient_name);
      WriteFile (path_join Ex.outdir Ex.patient_name)
        (JObj [ (py "metadata", JObj [ (py "transferTAN", JStr Ex.tan1) ]);
                (py "submittedAt", JStr Ex.date1);
                (py "patient", JObj [ (py "id", JStr (py "X")) ]) ]);
      Patch KindA (path_join Ex.indir Ex.patient_other);
      Patch KindB (path_join Ex.indir Ex.report_name);
      WriteFile (path_join Ex.outdir Ex.report_name)
        (JObj [ (py "id", JStr Ex.tan2);
                (py "status", JStr (py "submitted"));
                (py "createdAt", JStr Ex.date2) ]) ] ∧
  (main Ex.w_ok Ex.args).2 = inr tt.
Proof. by vm_compute. Qed.

(** ** Which exceptions leave [main] *)

(** An exception leaves a patcher in two cases only: a submission report
    that is not an object, and an identifier that is a non-empty array or
    object. *)
Lemma patcher_raises_inv k w filepath tan_date_map tr r :
  patcher k w filepath tan_date_map = (tr, inl r) →
  ∃ data,
    w_load w filepath = Loaded data ∧
    ((k = KindB ∧ (∀ fields, data ≠ JObj fields) ∧ r = Exc AttributeError) ∨
     (∃ tan, extract k data = inr tan ∧ truthy tan = true ∧
             py_contains tan_date_map tan = inl TypeError ∧
             r = Exc TypeError)).
Proof.
  intros Hp.
  destruct (w_load w filepath) as [e|data] eqn:Hload.
  { destruct (patcher_load_raises k _ _ tan_date_map _ Hload) as [m Hm].
    congruence. }
  exists data. split; [done|].
  destruct (extract k data) as [e|tan] eqn:He.
  { left. rewrite (patcher_extract_raises _ _ _ _ _ _ Hload He) in Hp.
    injection Hp as _ <-.
    destruct k; simpl in He.
    - unfold transferTAN_of in He.
      destruct (match py_get data (py "metadata") (JObj []) with
                | inl e0 => inl e0
                | inr metadata => py_get metadata (py "transferTAN") JNull
                end) as [[]|] eqn:Hget; try done;
        destruct data as [| | | | | |fields]; simpl in Hget; try done;
        destruct (default (JObj []) (dict_lookup (py "metadata") fields));
        done.
    - destruct data; simpl in He; try done; by injection He as <-. }
  destruct (truthy tan) eqn:Ht.
  2:{ rewrite (patcher_falsy _ _ _ _ _ _ Hload He Ht) in Hp. done. }
  destruct (py_contains tan_date_map tan) as [e|[]] eqn:Hc.
  - right. rewrite (patcher_unhashable _ _ _ _ _ _ _ Hload He Ht Hc) in Hp.
    injection Hp as _ <-. exists tan.
    destruct tan; simpl in Hc; try done; by injection Hc as <-.
  - destruct tan as [| | | |s| |]; simpl in Hc; try done.
    injection Hc as Hc. apply bool_decide_eq_true in Hc as [date Hdate].
    destruct (extract_identifier_field _ _ _ He) as (fields & -> & Hid);
      [done|].
    assert (s ≠ []) as Hs by (by destruct s).
    by rewrite (patcher_found _ _ _ _ _ _ _ Hload He Hs Hdate) in Hp.
  - by rewrite (patcher_not_found _ _ _ _ _ _ Hload He Ht Hc) in Hp.
Qed.





(** ** The two defects at work *)

(** A record that is not an object: Patch Kind A warns and goes on, Patch
    Kind B raises [AttributeError]. *)
Lemma patcher_not_object w filepath tan_date_map data :
  w_load w filepath = Loaded data →
  (∀ fields, data ≠ JObj fields) →
  process_patient_record w filepath tan_date_map
  = ([Patch KindA filepath; Stderr (NoTransferTAN filepath)], inr None) ∧
  process_submission_report w filepath tan_date_map
  = ([Patch KindB filepath], inl (Exc AttributeError)).
Proof.
  intros Hload Hobj. split.
  - apply (patcher_falsy KindA _ _ _ data JNull); [done | | done].
    destruct data; try done. by destruct (Hobj fields).
  - apply (patcher_extract_raises KindB _ _ _ data); [done|].
    destruct data; try done. by destruct (Hobj fields).
Qed.

(** C1 fails on the code.  In the example the submission report
    [SubmissionReport_Patient_Z_TAN_0000.json] holds the JSON array [[]].
    Patch Kind A, given that file, warns and returns no correction; Patch
    Kind B raises [AttributeError], which nothing catches: [main] ends with
    it, and the submission report that comes next, whose identifier is in
    the table, is never opened nor written. *)
Theorem submission_report_not_object_aborts :
  w_load Ex.w (path_join Ex.indir Ex.report_list) = Loaded (JArr []) ∧
  process_patient_record Ex.w (path_join Ex.indir Ex.report_list)
    (read_rows Ex.rows)
  = ([Patch KindA (path_join Ex.indir Ex.report_list);
      Stderr (NoTransferTAN (path_join Ex.indir Ex.report_list))],
     inr None) ∧
  process_submission_report Ex.w (path_join Ex.indir Ex.report_list)
    (read_rows Ex.rows)
  = ([Patch KindB (path_join Ex.indir Ex.report_list)],
     inl (Exc AttributeError)) ∧
  (main Ex.w Ex.args).2 = inl (Exc AttributeError) ∧
  file_ops (main Ex.w Ex.args).1
  = [ Patch KindA (path_join Ex.indir Ex.patient_name);
      WriteFile (path_join Ex.outdir Ex.patient_name)
        (JObj [ (py "metadata", JObj [ (py "transferTAN", JStr Ex.tan1) ]);
                (py "submittedAt", JStr Ex.date1);
                (py "patient", JObj [ (py "id", JStr (py "X")) ]) ]);
      Patch KindA (path_join Ex.indir Ex.patient_other);
      Patch KindB (path_join Ex.indir Ex.report_list) ] ∧
  get_json_files Ex.w Ex.indir
  = ([], inr ([Ex.patient_name; Ex.patient_other],
              [Ex.report_list; Ex.report_name])) ∧
  identifier_field KindB Ex.report_doc = Some (JStr Ex.tan2) ∧
  read_rows Ex.rows !! Ex.tan2 = Some Ex.date2.
Proof. split_and!; vm_compute; reflexivity. Qed.

(** An identifier that is a non-empty array or object is unhashable: the
    membership test of either patcher raises [TypeError], outside every
    [try]. *)
Example unhashable_identifier_aborts :
  process_patient_record Ex.w_array_tan (path_join Ex.indir Ex.patient_name)
    (read_rows Ex.rows)
  = ([Patch KindA (path_join Ex.indir Ex.patient_name)],
     inl (Exc TypeError)) ∧
  (main Ex.w_array_tan Ex.args).2 = inl (Exc TypeError).
Proof. split; vm_compute; reflexivity. Qed.

(** C5 fails on the code.  In the same run every precondition holds: the
    three paths exist and the table has two entries; no file fails to be
    read or written; yet the exit status is 1, because of the exception
    that left Patch Kind B. *)
Theorem exit_status_one_without_fatal_precondition :
  validate_paths Ex.w Ex.cfg Ex.indir Ex.outdir = ([], inr true) ∧
  parse_config_file Ex.w Ex.cfg = ([], inr (read_rows Ex.rows)) ∧
  size (read_rows Ex.rows) = 2%nat ∧
  exit_status (main Ex.w Ex.args).2 = 1.
Proof. split_and!; vm_compute; reflexivity. Qed.

(** Without the offending file the same installation exits with 0, also
    when every write fails. *)
Example exit_status_zero :
  exit_status (main Ex.w_ok Ex.args).2 = 0 ∧
  exit_status (main Ex.w_read_only Ex.args).2 = 0.
Proof. split; vm_compute; reflexivity. Qed.

(** * Further properties *)

(** ** Files that cannot be loaded *)

(** A file that cannot be opened or parsed is reported once and skipped:
    the patcher returns no correction and raises nothing, and the loop body
    of [main] writes nothing and leaves both counters as they are, so that
    a read or parse failure is not among the errors of the summary. *)
Theorem load_failure_skipped (k : kind) (w : world) (a : arguments)
    (tan_date_map : gmap pystr pystr) (counts : Z * Z) (filename : pystr)
    (e : exception) :
  let filepath := path_join (in_dir a) filename in
  w_load w filepath = LoadRaises e →
  patcher k w filepath tan_date_map
  = ([Patch k filepath; Stderr (load_error filepath e)], inr None) ∧
  loop_body k w a tan_date_map counts filename
  = ([Patch k filepath; Stderr (load_error filepath e)], inr counts).
Proof.
  intros filepath Hload.
  assert (patcher k w filepath tan_date_map
          = ([Patch k filepath; Stderr (load_error filepath e)], inr None))
    as Hp.
  { rewrite patcher_unfold. unfold read_json. rewrite Hload. by destruct e. }
  split; [done|]. by apply loop_body_none.
Qed.

Lemma load_failure_skipped_witness :
  patcher KindA Ex2.w_bad_json (path_join Ex.indir Ex.patient_name)
    (read_rows Ex.rows)
  = ([Patch KindA (path_join Ex.indir Ex.patient_name);
      Stderr (NotValidJson (path_join Ex.indir Ex.patient_name))],
     inr None) ∧
  loop_body KindA Ex2.w_bad_json Ex.args (read_rows Ex.rows) (3, 1)
    Ex.patient_name
  = ([Patch KindA (path_join Ex.indir Ex.patient_name);
      Stderr (NotValidJson (path_join Ex.indir Ex.patient_name))],
     inr (3, 1)).
Proof.
  exact (load_failure_skipped KindA Ex2.w_bad_json Ex.args (read_rows Ex.rows)
           (3, 1) Ex.patient_name JSONDecodeError eq_refl).
Defined.

(** ** Identifiers that are not strings *)

(** An identifier that is a number other than zero, or [true], is in no
    table: the record is skipped without a word, as a record whose
    identifier is unknown. *)
Theorem scalar_identifier_skipped (k : kind) (w : world) (a : arguments)
    (tan_date_map : gmap pystr pystr) (counts : Z * Z) (filename : pystr)
    (data v : json) :
  let filepath := path_join (in_dir a) filename in
  w_load w filepath = Loaded data →
  identifier_field k data = Some v →
  truthy_scalar v →
  patcher k w filepath tan_date_map = ([Patch k filepath], inr None) ∧
  loop_body k w a tan_date_map counts filename
  = ([Patch k filepath], inr counts).
Proof.
  intros filepath Hload Hid [Ht Hv].
  assert (patcher k w filepath tan_date_map = ([Patch k filepath], inr None))
    as Hp.
  { eapply patcher_not_found;
      [done | by apply identifier_field_extract | done |].
    by destruct Hv as [[b ->] | [[n ->] | [f ->]]]. }
  split; [done|]. by apply loop_body_none.
Qed.

Lemma scalar_identifier_skipped_witness :
  patcher KindB Ex2.w_seven (path_join Ex.indir Ex.report_name)
    (read_rows Ex.rows)
  = ([Patch KindB (path_join Ex.indir Ex.report_name)], inr None) ∧
  loop_body KindB Ex2.w_seven Ex.args (read_rows Ex.rows) (0, 0)
    Ex.report_name
  = ([Patch KindB (path_join Ex.indir Ex.report_name)], inr (0, 0)).
Proof.
  refine (scalar_identifier_skipped KindB Ex2.w_seven Ex.args
            (read_rows Ex.rows) (0, 0) Ex.report_name Ex2.report_seven
            (JInt 7) ltac:(vm_compute; reflexivity)
            ltac:(vm_compute; reflexivity) _).
  split; [reflexivity | right; left; by exists 7].
Defined.

(** An exception leaves a patcher in two cases and no other: a submission
    report whose top-level value is not an object ([AttributeError]), and a
    record of either kind whose identifier is a non-empty array or object
    ([TypeError]). *)
Theorem patcher_raises_iff (k : kind) (w : world) (filepath : pystr)
    (tan_date_map : gmap pystr pystr) (r : raised) :
  (patcher k w filepath tan_date_map).2 = inl r ↔
  ∃ data,
    w_load w filepath = Loaded data ∧
    ((k = KindB ∧ (∀ fields, data ≠ JObj fields) ∧ r = Exc AttributeError) ∨
     (∃ v, identifier_field k data = Some v ∧ unhashable v ∧
           r = Exc TypeError)).
Proof.
  split.
  - destruct (patcher k w filepath tan_date_map) as [tr res] eqn:Hp.
    simpl. intros ->.
    apply patcher_raises_inv in Hp
      as (data & Hload & [H | (tan & He & Ht & Hc & ->)]).
    + exists data. split; [done|]. by left.
    + exists data. split; [done|]. right. exists tan.
      assert (unhashable tan) as Hu.
      { destruct tan as [| | | | |[|x items]|[|x fields]]; simpl in *;
          try done; [left | right]; by eexists _, _. }
      split_and!; [|done..].
      apply extract_identifier_field in He as (fields & _ & He); [done|].
      by destruct Hu as [(? & ? & ->) | (? & ? & ->)].
  - intros (data & Hload & [(-> & Hobj & ->) | (v & Hid & Hu & ->)]).
    + apply (patcher_not_object w filepath tan_date_map) in Hload as [_ Hp];
        [|done].
      simpl. by rewrite Hp.
    + erewrite patcher_unhashable;
        [done | done | by apply identifier_field_extract | |].
      * by destruct Hu as [(? & ? & ->) | (? & ? & ->)].
      * by destruct Hu as [(? & ? & ->) | (? & ? & ->)].
Qed.

(** ** Patching a submission report, and patching twice *)

(** C3's counterpart for Kind B.  When the top-level [id] of a submission
    report has an entry in a loaded table, Patch Kind B returns the
    identifier, the table's timestamp and the report with its top-level
    [createdAt] set to that timestamp: replaced where it stands, or added
    at the end when it is missing; every other field is as it was. *)
Theorem process_submission_report_frame (w : world)
    (config_path filepath : pystr) (tr : list event)
    (tan_date_map : gmap pystr pystr) (fields : list (pystr * json))
    (tan date : pystr) :
  parse_config_file w config_path = (tr, inr tan_date_map) →
  w_load w filepath = Loaded (JObj fields) →
  dict_lookup (py "id") fields = Some (JStr tan) →
  tan_date_map !! tan = Some date →
  ∃ fields',
    process_submission_report w filepath tan_date_map
    = ([Patch KindB filepath], inr (Some (JStr tan, date, JObj fields'))) ∧
    dict_lookup (py "createdAt") fields' = Some (JStr date) ∧
    (∀ k, k ≠ py "createdAt" → dict_lookup k fields' = dict_lookup k fields) ∧
    match dict_lookup (py "createdAt") fields with
    | None => fields' = fields ++ [(py "createdAt", JStr date)]
    | Some old =>
        ∃ l1 l2,
          fields = l1 ++ (py "createdAt", old) :: l2 ∧
          dict_lookup (py "createdAt") l1 = None ∧
          fields' = l1 ++ (py "createdAt", JStr date) :: l2
    end.
Proof.
  intros Hcfg Hload Hid Hdate.
  exists (dict_set (py "createdAt") (JStr date) fields). split_and!.
  - apply (patcher_found KindB); [done | | | done].
    + by apply (identifier_field_extract KindB).
    + by eapply parse_config_file_key.
  - apply dict_lookup_set_eq.
  - intros k Hk. by apply dict_lookup_set_ne.
  - destruct (dict_lookup (py "createdAt") fields) as [old|] eqn:Hold.
    + by apply dict_set_present.
    + by apply dict_set_absent.
Qed.

Lemma process_submission_report_frame_witness :
  ∃ fields',
    process_submission_report Ex.w_ok (path_join Ex.indir Ex.report_name)
      (read_rows Ex.rows)
    = ([Patch KindB (path_join Ex.indir Ex.report_name)],
       inr (Some (JStr Ex.tan2, Ex.date2, JObj fields'))) ∧
    dict_lookup (py "createdAt") fields' = Some (JStr Ex.date2) ∧
    (∀ k, k ≠ py "createdAt" →
          dict_lookup k fields'
          = dict_lookup k
              [ (py "id", JStr Ex.tan2);
                (py "status", JStr (py "submitted")) ]) ∧
    fields' = [ (py "id", JStr Ex.tan2);
                (py "status", JStr (py "submitted")) ]
              ++ [(py "createdAt", JStr Ex.date2)].
Proof.
  exact (process_submission_report_frame Ex.w_ok Ex.cfg
           (path_join Ex.indir Ex.report_name) [] (read_rows Ex.rows)
           _ Ex.tan2 Ex.date2
           ltac:(vm_compute; reflexivity) ltac:(vm_compute; reflexivity)
           ltac:(vm_compute; reflexivity) ltac:(vm_compute; reflexivity)).
Defined.

Lemma dict_set_idem k v d : dict_set k v (dict_set k v d) = dict_set k v d.
Proof.
  induction d as [|[k' v'] d IH]; simpl.
  - by rewrite decide_True.
  - destruct (decide (k' = k)) as [->|Hne]; simpl.
    + by rewrite decide_True.
    + by rewrite decide_False, IH.
Qed.

(** The patched field is not where the identifier is. *)
Lemma identifier_field_patched k v fields :
  identifier_field k (JObj (dict_set (patched_field k) v fields))
  = identifier_field k (JObj fields).
Proof. destruct k; simpl; by rewrite dict_lookup_set_ne. Qed.

(** Patching is idempotent: a patcher that is given a document it has
    patched, with the same table, returns the same correction and the same
    document. *)
Theorem patcher_idempotent (k : kind) (w w' : world) (filepath : pystr)
    (tan_date_map : gmap pystr pystr) (tr : list event) (tan : json)
    (date : pystr) (data' : json) :
  patcher k w filepath tan_date_map = (tr, inr (Some (tan, date, data'))) →
  w_load w' filepath = Loaded data' →
  patcher k w' filepath tan_date_map
  = ([Patch k filepath], inr (Some (tan, date, data'))).
Proof.
  intros Hp Hload'.
  destruct (patcher_cases k w filepath tan_date_map)
    as [(tr1 & r & Hp1 & _ & _ & Hr)
       |(fields & s & date1 & Hload & Hid & Hs & Hdate & Hp1)].
  { rewrite Hp in Hp1. destruct Hr as [-> | [e ->]]; by injection Hp1. }
  rewrite Hp in Hp1. injection Hp1 as -> -> -> ->.
  rewrite (patcher_found k w' filepath tan_date_map
             (dict_set (patched_field k) (JStr date1) fields) s date1);
    [by rewrite dict_set_idem | done | | done | done].
  apply identifier_field_extract. by rewrite identifier_field_patched.
Qed.

Lemma patcher_idempotent_witness :
  patcher KindB Ex2.w_second (path_join Ex.indir Ex.report_name)
    (read_rows Ex.rows)
  = ([Patch KindB (path_join Ex.indir Ex.report_name)],
     inr (Some (JStr Ex.tan2, Ex.date2, Ex2.report_patched))).
Proof.
  exact (patcher_idempotent KindB Ex.w_ok Ex2.w_second
           (path_join Ex.indir Ex.report_name) (read_rows Ex.rows)
           [Patch KindB (path_join Ex.indir Ex.report_name)]
           (JStr Ex.tan2) Ex.date2 Ex2.report_patched
           ltac:(vm_compute; reflexivity) ltac:(vm_compute; reflexivity)).
Defined.

(** ** What a loaded table holds *)

Lemma lstrip_length s : (length (lstrip s) ≤ length s)%nat.
Proof.
  induction s as [|c s IH]; simpl; [done|].
  destruct (is_space c); simpl; lia.
Qed.

Lemma lstrip_idem s : lstrip (lstrip s) = lstrip s.
Proof.
  induction s as [|c s IH]; simpl; [done|].
  destruct (is_space c) eqn:Hc; [done|]. simpl. by rewrite Hc.
Qed.

(** What [lstrip] drops is a prefix. *)
Lemma lstrip_suffix s : ∃ spaces, s = spaces ++ lstrip s.
Proof.
  induction s as [|c s [spaces IH]]; simpl; [by exists []|].
  destruct (is_space c).
  - exists (c :: spaces). simpl. by rewrite <- IH.
  - by exists [].
Qed.

(** A string that starts like a left-stripped one is left-stripped. *)
Lemma lstrip_prefix s1 s2 :
  lstrip (s1 ++ s2) = s1 ++ s2 → s1 ≠ [] → lstrip s1 = s1.
Proof.
  destruct s1 as [|c s1]; [done|]. simpl. intros H _.
  destruct (is_space c); [|done].
  pose proof (lstrip_length (s1 ++ s2)) as Hlen.
  rewrite H in Hlen. simpl in Hlen. lia.
Qed.

(** A stripped string has no white space at either end. *)
Lemma strip_ends s :
  lstrip (strip s) = strip s ∧ rstrip (strip s) = strip s.
Proof.
  unfold strip, rstrip.
  assert (lstrip (reverse (lstrip (reverse (lstrip s))))
          = reverse (lstrip (reverse (lstrip s)))) as Hl.
  { destruct (lstrip_suffix (reverse (lstrip s))) as [spaces Hs].
    destruct (decide (reverse (lstrip (reverse (lstrip s))) = []))
      as [-> | Hne]; [done|].
    apply (lstrip_prefix _ (reverse spaces)); [|done].
    rewrite <- reverse_app, <- Hs, reverse_involutive.
    apply lstrip_idem. }
  split; [done|].
  by rewrite reverse_involutive, lstrip_idem.
Qed.

Lemma strip_idem s : strip (strip s) = strip s.
Proof.
  destruct (strip_ends s) as [Hl Hr].
  unfold strip at 1. by rewrite Hl, Hr.
Qed.

(** The rows leave trimmed, non-empty keys and values. *)
Lemma read_rows_trimmed rows tan date :
  read_rows rows !! tan = Some date →
  tan ≠ [] ∧ date ≠ [] ∧ strip tan = tan ∧ strip date = date.
Proof.
  intros (before & row & after & _ & Hrow & _)%read_rows_lookup.
  destruct Hrow as (c0 & c1 & rest & _ & <- & <- & Htan & Hdate).
  by rewrite !strip_idem.
Qed.

(** Every entry of a table that the loader returned is trimmed and not
    empty, key and value. *)
Theorem parse_config_file_entries (w : world) (config_path : pystr)
    (tr : list event) (tan_date_map : gmap pystr pystr) (tan date : pystr) :
  parse_config_file w config_path = (tr, inr tan_date_map) →
  tan_date_map !! tan = Some date →
  tan ≠ [] ∧ date ≠ [] ∧ strip tan = tan ∧ strip date = date.
Proof.
  unfold parse_config_file.
  destruct (csv_failure (w_csv w config_path)) as [e|]; simpl;
    intros [= _ <-].
  - by rewrite lookup_empty.
  - apply read_rows_trimmed.
Qed.

Lemma parse_config_file_entries_witness :
  Ex.tan1 ≠ [] ∧ Ex.date1 ≠ [] ∧
  strip Ex.tan1 = Ex.tan1 ∧ strip Ex.date1 = Ex.date1.
Proof.
  exact (parse_config_file_entries Ex.w_ok Ex.cfg [] (read_rows Ex.rows)
           Ex.tan1 Ex.date1
           ltac:(vm_compute; reflexivity) ltac:(vm_compute; reflexivity)).
Defined.

Lemma read_rows_empty rows :
  read_rows rows = ∅ ↔ ∀ row, row ∈ rows → malformed row.
Proof.
  induction rows as [|row rows IH] using rev_ind.
  - split; [|done]. intros _ row Hrow. by apply elem_of_nil in Hrow.
  - rewrite read_rows_snoc.
    destruct (add_row_cases (read_rows rows) row)
      as [(t & d & Hc & ->) | [Hm ->]].
    + split.
      * intros Hempty. by apply insert_non_empty in Hempty.
      * intros Hall. exfalso.
        apply (malformed_not_contributes row t d); [|done].
        apply Hall, elem_of_app. right. constructor.
    + rewrite IH. split.
      * intros Hall r [Hr | ->%list_elem_of_singleton]%elem_of_app;
          [by apply Hall | done].
      * intros Hall r Hr. apply Hall, elem_of_app. by left.
Qed.

(** The loader raises nothing, and the table it returns is empty in two
    cases only: the reading failed, or no row has two fields that are not
    empty after trimming. *)
Theorem parse_config_file_empty (w : world) (config_path : pystr) :
  ∃ tr tan_date_map,
    parse_config_file w config_path = (tr, inr tan_date_map) ∧
    (tan_date_map = ∅ ↔
     csv_failure (w_csv w config_path) ≠ None ∨
     ∀ row, row ∈ csv_rows (w_csv w config_path) → malformed row).
Proof.
  unfold parse_config_file.
  destruct (csv_failure (w_csv w config_path)) as [e|]; simpl.
  - eexists _, _. split; [done|]. split; [by left | done].
  - eexists _, _. split; [done|]. rewrite read_rows_empty.
    split; [by right | by intros [? | ?]].
Qed.

(** ** The counters and the summary *)

Lemma written_app tr1 tr2 : written (tr1 ++ tr2) = written tr1 ++ written tr2.
Proof. apply flat_map_app. Qed.

Lemma failed_app tr1 tr2 : failed (tr1 ++ tr2) = failed tr1 ++ failed tr2.
Proof. apply flat_map_app. Qed.

(** A patcher opens its file and prints at most one diagnostic. *)
Lemma patcher_trace k w filepath tan_date_map :
  ∃ tr,
    (patcher k w filepath tan_date_map).1 = Patch k filepath :: tr ∧
    (tr = [] ∨ ∃ m, tr = [Stderr m]).
Proof.
  destruct (w_load w filepath) as [e|data] eqn:Hload.
  { destruct (patcher_load_raises k _ _ tan_date_map _ Hload) as [m ->].
    eexists. split; [done|]. right. by eexists. }
  destruct (extract k data) as [e|tan] eqn:He.
  { rewrite (patcher_extract_raises _ _ _ _ _ _ Hload He). eauto. }
  destruct (truthy tan) eqn:Ht.
  2:{ rewrite (patcher_falsy _ _ _ _ _ _ Hload He Ht). eauto. }
  destruct (patcher_cases k w filepath tan_date_map)
    as [(tr & r & Hp & _ & _ & _) | (? & ? & ? & _ & _ & _ & _ & ->)];
    [|eauto].
  destruct (py_contains tan_date_map tan) as [e|[]] eqn:Hc.
  - rewrite (patcher_unhashable _ _ _ _ _ _ _ Hload He Ht Hc). eauto.
  - destruct tan as [| | | |s| |]; simpl in Hc; try done.
    injection Hc as Hc. apply bool_decide_eq_true in Hc as [date Hdate].
    destruct (extract_identifier_field _ _ _ He) as (fields & -> & Hid);
      [done|].
    assert (s ≠ []) as Hs by (by destruct s).
    rewrite (patcher_found _ _ _ _ _ _ _ Hload He Hs Hdate). eauto.
  - rewrite (patcher_not_found _ _ _ _ _ _ Hload He Ht Hc). eauto.
Qed.

(** The loop body counts what it does: a modification for a written file,
    an error for a failed write, and nothing else. *)
Lemma loop_body_counts k w a tan_date_map counts filename tr counts' :
  loop_body k w a tan_date_map counts filename = (tr, inr counts') →
  counts'.1 = counts.1 + Z.of_nat (length (written tr)) ∧
  counts'.2 = counts.2 + Z.of_nat (length (failed tr)).
Proof.
  destruct (patcher_trace k w (path_join (in_dir a) filename) tan_date_map)
    as (ptr & Hptr & Hshape).
  destruct (patcher k w (path_join (in_dir a) filename) tan_date_map)
    as [tr0 [e | [[[tan date] data] | ]]] eqn:Hp; simpl in Hptr; subst tr0.
  - by rewrite (loop_body_raises _ _ _ _ _ _ _ _ Hp).
  - rewrite (loop_body_some _ _ _ _ _ _ _ _ _ _ Hp).
    destruct (w_write w _ _); intros [= <- <-];
      destruct Hshape as [-> | [m ->]]; simpl; lia.
  - rewrite (loop_body_none _ _ _ _ _ _ _ Hp). intros [= <- <-].
    destruct Hshape as [-> | [m ->]]; simpl; lia.
Qed.

Lemma for_each_counts k w a tan_date_map files counts tr counts' :
  for_each files (loop_body k w a tan_date_map) counts = (tr, inr counts') →
  counts'.1 = counts.1 + Z.of_nat (length (written tr)) ∧
  counts'.2 = counts.2 + Z.of_nat (length (failed tr)).
Proof.
  revert counts tr. induction files as [|f files IH]; intros counts tr.
  { intros [= <- <-]. simpl. lia. }
  cbn [for_each].
  destruct (loop_body k w a tan_date_map counts f) as [tr1 [e|c1]] eqn:Hf;
    cbn [mbind M_bind]; [done|].
  destruct (for_each files (loop_body k w a tan_date_map) c1)
    as [tr2 [e|c2]] eqn:Hrest; [done|].
  intros [= <- <-].
  apply loop_body_counts in Hf as [Hf1 Hf2].
  apply IH in Hrest as [Hr1 Hr2].
  rewrite written_app, failed_app, !length_app. lia.
Qed.

(** A run that returns ends with its summary, and the summary tells the
    truth: the number of files modified is the number of files written, the
    number of errors is the number of writes that failed, and the line of
    the errors is printed only when there are some. *)
Theorem main_summary (w : world) (a : arguments) :
  (main w a).2 = inr tt →
  ∃ body,
    (main w a).1
    = body ++
      Stdout (SummaryModified (Z.of_nat (length (written body)))) ::
      (if 0 <? Z.of_nat (length (failed body))
       then [Stdout (SummaryErrors (Z.of_nat (length (failed body))))]
       else []) ∧
    written (main w a).1 = written body ∧
    failed (main w a).1 = failed body.
Proof.
  destruct (validate_paths_cases w (config a) (in_dir a) (out_dir a))
    as [[m Hv] | Hv].
  { by rewrite (main_valid_table _ _ _ Hv). }
  assert (∃ tr0 tan_date_map,
            parse_config_file w (config a) = (tr0, inr tan_date_map) ∧
            written tr0 = [] ∧ failed tr0 = [])
    as (tr0 & tan_date_map & Hcfg & Hw0 & Hf0).
  { unfold parse_config_file.
    destruct (csv_failure (w_csv w (config a))); by eexists _, _. }
  unfold main. rewrite Hv. simpl. rewrite Hcfg. simpl.
  destruct (bool_decide (tan_date_map = ∅)); simpl; [done|].
  unfold get_json_files.
  destruct (w_listdir w (in_dir a)) as [e|names]; simpl; [done|].
  destruct (foldl (classify w (in_dir a)) ([], []) names) as [prs srs].
  simpl.
  pose proof (for_each_counts KindA w a tan_date_map prs (0, 0)) as HA.
  change (loop_body KindA w a tan_date_map)
    with (patient_body w a tan_date_map) in HA.
  destruct (for_each prs (patient_body w a tan_date_map) (0, 0))
    as [trA [e|c]]; simpl in *; [done|].
  destruct (HA _ _ eq_refl) as [HA1 HA2]. clear HA.
  pose proof (for_each_counts KindB w a tan_date_map srs c) as HB.
  change (loop_body KindB w a tan_date_map)
    with (report_body w a tan_date_map) in HB.
  destruct (for_each srs (report_body w a tan_date_map) c)
    as [trB [e|c']]; simpl in *; [done|].
  destruct (HB _ _ eq_refl) as [HB1 HB2]. clear HB.
  intros _.
  exists (tr0 ++ Stdout (NumberOfPairs (size tan_date_map))
              :: Stdout (FoundPatientRecords (length prs))
              :: Stdout (FoundSubmissionReports (length srs))
              :: trA ++ trB).
  assert (c'.1 = Z.of_nat (length (written (tr0 ++
              Stdout (NumberOfPairs (size tan_date_map))
              :: Stdout (FoundPatientRecords (length prs))
              :: Stdout (FoundSubmissionReports (length srs))
              :: trA ++ trB)))) as <-.
  { rewrite written_app, Hw0. simpl. rewrite written_app, length_app. lia. }
  assert (c'.2 = Z.of_nat (length (failed (tr0 ++
              Stdout (NumberOfPairs (size tan_date_map))
              :: Stdout (FoundPatientRecords (length prs))
              :: Stdout (FoundSubmissionReports (length srs))
              :: trA ++ trB)))) as <-.
  { rewrite failed_app, Hf0. simpl. rewrite failed_app, length_app. lia. }
  destruct (0 <? c'.2); simpl.
  - split_and!.
    + rewrite <- !app_assoc. simpl. by rewrite <- !app_assoc.
    + rewrite !written_app. simpl. rewrite !written_app. simpl.
      by rewrite !app_nil_r.
    + rewrite !failed_app. simpl. rewrite !failed_app. simpl.
      by rewrite !app_nil_r.
  - split_and!.
    + rewrite <- !app_assoc. simpl. by rewrite <- !app_assoc.
    + rewrite !written_app. simpl. rewrite !written_app. simpl.
      by rewrite !app_nil_r.
    + rewrite !failed_app. simpl. rewrite !failed_app. simpl.
      by rewrite !app_nil_r.
Qed.

Lemma main_summary_witness :
  ∃ body,
    (main Ex.w_read_only Ex.args).1
    = body ++
      Stdout (SummaryModified (Z.of_nat (length (written body)))) ::
      (if 0 <? Z.of_nat (length (failed body))
       then [Stdout (SummaryErrors (Z.of_nat (length (failed body))))]
       else []) ∧
    written (main Ex.w_read_only Ex.args).1 = written body ∧
    failed (main Ex.w_read_only Ex.args).1 = failed body.
Proof.
  exact (main_summary Ex.w_read_only Ex.args ltac:(vm_compute; reflexivity)).
Defined.

(** With an output directory that cannot be written, the two records of
    the table are counted as errors and none as modified. *)
Example main_summary_example :
  failed (main Ex.w_read_only Ex.args).1
  = [path_join Ex.outdir Ex.patient_name;
     path_join Ex.outdir Ex.report_name] ∧
  Stdout (SummaryModified 0) ∈ (main Ex.w_read_only Ex.args).1 ∧
  Stdout (SummaryErrors 2) ∈ (main Ex.w_read_only Ex.args).1.
Proof.
  split_and!; [by vm_compute | |];
    apply list_elem_of_In; vm_compute; tauto.
Qed.

(** ** Fatal preconditions *)

(** The message for the first path that is missing, in the order of the
    checks. *)
Lemma validate_paths_missing w c i o :
  w_isfile w c = false ∨ w_isdir w i = false ∨ w_isdir w o = false →
  ∃ m,
    validate_paths w c i o = ([Stderr m], inr false) ∧
    m = (if w_isfile w c then
           if w_isdir w i then OutputDirNotFound o else InputDirNotFound i
         else ConfigNotFound c).
Proof.
  unfold validate_paths. intros H.
  destruct (w_isfile w c); simpl; [|by eexists].
  destruct (w_isdir w i); simpl; [|by eexists].
  destruct (w_isdir w o); simpl; [|by eexists].
  by destruct H as [? | [? | ?]].
Qed.

Lemma validate_paths_present w c i o :
  w_isfile w c = true → w_isdir w i = true → w_isdir w o = true →
  validate_paths w c i o = ([], inr true).
Proof. unfold validate_paths. by intros -> -> ->. Qed.

(** When one of the three paths is missing, [main] prints one line, for
    the first missing path in the order table file, input directory, output
    directory, and exits with 1; the table file is not read. *)
Theorem main_missing_path (w : world) (a : arguments) :
  w_isfile w (config a) = false ∨ w_isdir w (in_dir a) = false ∨
  w_isdir w (out_dir a) = false →
  main w a
  = ([Stderr (if w_isfile w (config a) then
                if w_isdir w (in_dir a) then OutputDirNotFound (out_dir a)
                else InputDirNotFound (in_dir a)
              else ConfigNotFound (config a))],
     inl (SystemExit 1)).
Proof.
  intros (m & Hv & ->)%(validate_paths_missing w (config a) (in_dir a)
                          (out_dir a)).
  by apply main_valid_table.
Qed.

Lemma main_missing_path_witness :
  main Ex.w_ok Ex2.args_no_input
  = ([Stderr (InputDirNotFound (py "missing"))], inl (SystemExit 1)).
Proof.
  exact (main_missing_path Ex.w_ok Ex2.args_no_input
           ltac:(right; left; vm_compute; reflexivity)).
Defined.




(** ** A directory that cannot be listed *)

(** [os.listdir] is called outside every [try]: when the paths are there
    and the table is not empty but the input directory cannot be listed,
    the exception ends [main]; the exit status is 1 and no record is
    touched. *)
Theorem listdir_failure_aborts (w : world) (a : arguments) (e : exception) :
  w_isfile w (config a) = true →
  w_isdir w (in_dir a) = true →
  w_isdir w (out_dir a) = true →
  (parse_config_file w (config a)).2 ≠ inr ∅ →
  w_listdir w (in_dir a) = inl e →
  (main w a).2 = inl (Exc e) ∧
  exit_status (main w a).2 = 1 ∧
  file_ops (main w a).1 = [].
Proof.
  intros Hc Hi Ho Htable Hls.
  pose proof (validate_paths_present _ _ _ _ Hc Hi Ho) as Hv.
  destruct (parse_config_file w (config a)) as [tr0 res] eqn:Hcfg.
  assert (∃ tan_date_map, res = inr tan_date_map) as [tan_date_map ->].
  { unfold parse_config_file in Hcfg.
    destruct (csv_failure (w_csv w (config a)));
      injection Hcfg as _ <-; by eexists. }
  pose proof (parse_config_file_trace _ _ _ _ Hcfg) as Htr0.
  unfold main. rewrite Hv. simpl. rewrite Hcfg. simpl.
  rewrite bool_decide_eq_false_2 by (simpl in Htable; congruence).
  unfold get_json_files. rewrite Hls. simpl.
  split_and!; [done..|].
  rewrite file_ops_app, Htr0. done.
Qed.

Lemma listdir_failure_aborts_witness :
  (main Ex.w_ok Ex2.args_unlistable).2 = inl (Exc OSError) ∧
  exit_status (main Ex.w_ok Ex2.args_unlistable).2 = 1 ∧
  file_ops (main Ex.w_ok Ex2.args_unlistable).1 = [].
Proof.
  refine (listdir_failure_aborts Ex.w_ok Ex2.args_unlistable OSError
            ltac:(vm_compute; reflexivity) ltac:(vm_compute; reflexivity)
            ltac:(vm_compute; reflexivity) _ ltac:(vm_compute; reflexivity)).
  vm_compute. discriminate.
Defined.

(** ** What a run writes, and when it returns *)

Lemma kind_schedule_elem k w a tan_date_map files ev :
  ev ∈ kind_schedule k w a tan_date_map files ↔
  ∃ f, f ∈ files ∧ ev ∈ file_schedule k w a tan_date_map f.
Proof.
  induction files as [|f files IH].
  - split; [by intros ?%elem_of_nil | by intros (? & ?%elem_of_nil & _)].
  - rewrite kind_schedule_cons, elem_of_app, IH. split.
    + intros [H | (f' & Hf' & H)].
      * exists f. split; [constructor | done].
      * exists f'. split; [by constructor | done].
    + intros (f' & [-> | Hf']%elem_of_cons & H); [by left|].
      right. by exists f'.
Qed.

(** The write among the operations prescribed for a file. *)
Lemma file_schedule_write k w a tan_date_map f p d :
  WriteFile p d ∈ file_schedule k w a tan_date_map f ↔
  p = path_join (out_dir a) f ∧
  w_write w p d = None ∧
  ∃ tan date,
    (patcher k w (path_join (in_dir a) f) tan_date_map).2
    = inr (Some (tan, date, d)).
Proof.
  unfold file_schedule.
  destruct ((patcher k w (path_join (in_dir a) f) tan_date_map).2)
    as [e | [[[tan date] data] | ]].
  - split.
    + intros [? | ?%elem_of_nil]%elem_of_cons; done.
    + by intros (_ & _ & ? & ? & ?).
  - unfold write_op. split.
    + intros [? | H]%elem_of_cons; [done|].
      apply list_elem_of_singleton in H.
      destruct (w_write w (path_join (out_dir a) f) data) eqn:Hw; [done|].
      injection H as -> ->. split_and!; [done..|]. by eexists _, _.
    + intros (-> & Hw & tan' & date' & [= _ _ ->]).
      rewrite Hw. apply elem_of_cons. right. constructor.
  - split.
    + intros [? | ?%elem_of_nil]%elem_of_cons; done.
    + by intros (_ & _ & ? & ? & ?).
Qed.

Lemma file_ops_elem_write tr p d : WriteFile p d ∈ file_ops tr ↔ WriteFile p d ∈ tr.
Proof.
  unfold file_ops. rewrite !list_elem_of_In, filter_In. simpl. tauto.
Qed.

(** What the patcher's correction is made of. *)
Lemma patcher_some_inv k w filepath tan_date_map tan date data :
  (patcher k w filepath tan_date_map).2 = inr (Some (tan, date, data)) ↔
  ∃ fields s,
    w_load w filepath = Loaded (JObj fields) ∧
    identifier_field k (JObj fields) = Some (JStr s) ∧ s ≠ [] ∧
    tan_date_map !! s = Some date ∧ tan = JStr s ∧
    data = JObj (dict_set (patched_field k) (JStr date) fields).
Proof.
  split.
  - destruct (patcher_cases k w filepath tan_date_map)
      as [(tr & r & -> & _ & _ & [-> | [e ->]])
         |(fields & s & date1 & Hload & Hid & Hs & Hdate & ->)];
      simpl; try done.
    intros [= <- <- <-]. by exists fields, s.
  - intros (fields & s & Hload & Hid & Hs & Hdate & -> & ->).
    by rewrite (patcher_found k w filepath tan_date_map fields s date Hload
                  (identifier_field_extract _ _ _ Hid) Hs Hdate).
Qed.

(** The records a run writes.  Whatever way the run ends, a file it wrote
    has the name of a classified input file, that file is an object whose
    identifier is in the table, and what was written is the object with
    the patched field set to the table's timestamp.  When the run returns,
    every classified file of that description whose write succeeds was
    written. *)
Theorem main_written (w : world) (a : arguments) (tr0 : list event)
    (tan_date_map : gmap pystr pystr) (prs srs : list pystr) :
  parse_config_file w (config a) = (tr0, inr tan_date_map) →
  get_json_files w (in_dir a) = ([], inr (prs, srs)) →
  let files k := match k with KindA => prs | KindB => srs end in
  let described k f p d :=
    f ∈ files k ∧ p = path_join (out_dir a) f ∧
    ∃ fields tan date,
      w_load w (path_join (in_dir a) f) = Loaded (JObj fields) ∧
      identifier_field k (JObj fields) = Some (JStr tan) ∧
      tan_date_map !! tan = Some date ∧
      d = JObj (dict_set (patched_field k) (JStr date) fields) ∧
      w_write w p d = None in
  (∀ p d, WriteFile p d ∈ (main w a).1 → ∃ k f, described k f p d) ∧
  ((main w a).2 = inr tt →
   ∀ k f p d, described k f p d → WriteFile p d ∈ (main w a).1).
Proof.
  intros Hcfg Hfiles files described.
  destruct (main_ops w a tr0 tan_date_map prs srs Hcfg Hfiles)
    as [Hprefix Hall].
  assert (∀ k f p d,
            f ∈ files k →
            WriteFile p d ∈ file_schedule k w a tan_date_map f ↔
            described k f p d) as Hdescr.
  { intros k f p d Hf. rewrite file_schedule_write. unfold described. split.
    - intros (-> & Hw & tan & date & Hp).
      apply patcher_some_inv in Hp
        as (fields & s & Hload & Hid & Hs & Hdate & -> & ->).
      split_and!; [done..|]. by exists fields, s, date.
    - intros (_ & -> & fields & tan & date & Hload & Hid & Hdate & -> & Hw).
      split_and!; [done..|]. exists (JStr tan), date.
      apply patcher_some_inv. exists fields, tan. split_and!; try done.
      by eapply parse_config_file_key. }
  assert (∀ p d,
            WriteFile p d ∈ schedule w a tan_date_map prs srs ↔
            ∃ k f, described k f p d) as Hsched.
  { intros p d. unfold schedule. rewrite elem_of_app, !kind_schedule_elem.
    split.
    - intros [(f & Hf & H) | (f & Hf & H)].
      + exists KindA, f. by apply Hdescr.
      + exists KindB, f. by apply Hdescr.
    - intros (k & f & H). pose proof H as [Hf _].
      apply Hdescr in H; [|done].
      destruct k; [left | right]; by exists f. }
  split.
  - intros p d Hin%file_ops_elem_write. apply Hsched.
    by eapply elem_of_prefix.
  - intros Hret k f p d H. apply file_ops_elem_write.
    rewrite (Hall Hret). apply Hsched. by exists k, f.
Qed.

Lemma main_written_witness :
  let files k :=
    match k with
    | KindA => [Ex.patient_name; Ex.patient_other]
    | KindB => [Ex.report_name]
    end in
  let described k f p d :=
    f ∈ files k ∧ p = path_join (out_dir Ex.args) f ∧
    ∃ fields tan date,
      w_load Ex.w_ok (path_join (in_dir Ex.args) f) = Loaded (JObj fields) ∧
      identifier_field k (JObj fields) = Some (JStr tan) ∧
      read_rows Ex.rows !! tan = Some date ∧
      d = JObj (dict_set (patched_field k) (JStr date) fields) ∧
      w_write Ex.w_ok p d = None in
  (∀ p d, WriteFile p d ∈ (main Ex.w_ok Ex.args).1 →
          ∃ k f, described k f p d) ∧
  ((main Ex.w_ok Ex.args).2 = inr tt →
   ∀ k f p d, described k f p d → WriteFile p d ∈ (main Ex.w_ok Ex.args).1).
Proof.
  exact (main_written Ex.w_ok Ex.args [] (read_rows Ex.rows)
           [Ex.patient_name; Ex.patient_other] [Ex.report_name]
           ltac:(vm_compute; reflexivity) ltac:(vm_compute; reflexivity)).
Defined.

(** The files the example run writes. *)
Example main_written_example :
  written (main Ex.w_ok Ex.args).1
  = [ (path_join Ex.outdir Ex.patient_name,
       JObj [ (py "metadata", JObj [ (py "transferTAN", JStr Ex.tan1) ]);
              (py "submittedAt", JStr Ex.date1);
              (py "patient", JObj [ (py "id", JStr (py "X")) ]) ]);
      (path_join Ex.outdir Ex.report_name, Ex2.report_patched) ].
Proof. by vm_compute. Qed.




(** ** Records with and without a usable identifier *)

(** The table is trimmed, the records are not: an identifier with white
    space at either end matches no entry of a loaded table, and the record
    is skipped without a word. *)
Theorem untrimmed_identifier_skipped (k : kind) (w : world) (a : arguments)
    (tr0 : list event) (tan_date_map : gmap pystr pystr) (counts : Z * Z)
    (filename : pystr) (data : json) (s : pystr) :
  let filepath := path_join (in_dir a) filename in
  parse_config_file w (config a) = (tr0, inr tan_date_map) →
  w_load w filepath = Loaded data →
  identifier_field k data = Some (JStr s) →
  s ≠ [] →
  strip s ≠ s →
  loop_body k w a tan_date_map counts filename
  = ([Patch k filepath], inr counts).
Proof.
  intros filepath Hcfg Hload Hid Hs Hstrip.
  apply loop_body_none.
  eapply patcher_not_found;
    [done | by apply identifier_field_extract | by destruct s |].
  simpl. destruct (tan_date_map !! s) as [date|] eqn:Hdate.
  - exfalso. unfold parse_config_file in Hcfg.
    destruct (csv_failure (w_csv w (config a))); injection Hcfg as _ <-.
    + by rewrite lookup_empty in Hdate.
    + by apply read_rows_trimmed in Hdate as (_ & _ & ? & _).
  - by rewrite bool_decide_eq_false_2 by by intros [].
Qed.

(** A record in which no identifier is found gets the warning of its
    patcher and no correction: for Kind A whatever the document is (an
    array, a document without [metadata], a [metadata] that is not an
    object), for Kind B when the document is an object.  The loop body
    writes nothing and counts nothing. *)
Theorem missing_identifier_warned (k : kind) (w : world) (a : arguments)
    (tan_date_map : gmap pystr pystr) (counts : Z * Z) (filename : pystr)
    (data : json) :
  let filepath := path_join (in_dir a) filename in
  w_load w filepath = Loaded data →
  identifier_field k data = None →
  k = KindA ∨ (∃ fields, data = JObj fields) →
  patcher k w filepath tan_date_map
  = ([Patch k filepath; Stderr (no_identifier k filepath)], inr None) ∧
  loop_body k w a tan_date_map counts filename
  = ([Patch k filepath; Stderr (no_identifier k filepath)], inr counts).
Proof.
  intros filepath Hload Hid Hshape.
  assert (extract k data = inr JNull) as He.
  { destruct k.
    - destruct data as [| | | | | |fields]; try done.
      simpl in *. unfold transferTAN_of. simpl.
      destruct (dict_lookup (py "metadata") fields)
        as [[| | | | | |meta]|]; simpl in *; try done.
      by rewrite Hid.
    - destruct Hshape as [? | [fields ->]]; [done|].
      simpl in *. by rewrite Hid. }
  assert (patcher k w filepath tan_date_map
          = ([Patch k filepath; Stderr (no_identifier k filepath)], inr None))
    as Hp by by eapply patcher_falsy.
  split; [done|]. by apply loop_body_none.
Qed.


Lemma untrimmed_identifier_skipped_witness :
  loop_body KindB Ex2.w_untrimmed Ex.args (read_rows Ex.rows) (0, 0)
    Ex.report_name
  = ([Patch KindB (path_join Ex.indir Ex.report_name)], inr (0, 0)).
Proof.
  refine (untrimmed_identifier_skipped KindB Ex2.w_untrimmed Ex.args []
            (read_rows Ex.rows) (0, 0) Ex.report_name Ex2.report_untrimmed
            (py " EF56")
            ltac:(vm_compute; reflexivity) ltac:(vm_compute; reflexivity)
            ltac:(vm_compute; reflexivity) _ _); vm_compute; discriminate.
Defined.

Lemma missing_identifier_warned_witness :
  patcher KindA Ex.w (path_join Ex.indir Ex.report_list) (read_rows Ex.rows)
  = ([Patch KindA (path_join Ex.indir Ex.report_list);
      Stderr (NoTransferTAN (path_join Ex.indir Ex.report_list))],
     inr None) ∧
  loop_body KindA Ex.w Ex.args (read_rows Ex.rows) (1, 0) Ex.report_list
  = ([Patch KindA (path_join Ex.indir Ex.report_list);
      Stderr (NoTransferTAN (path_join Ex.indir Ex.report_list))],
     inr (1, 0)).
Proof.
  exact (missing_identifier_warned KindA Ex.w Ex.args (read_rows Ex.rows)
           (1, 0) Ex.report_list (JArr [])
           ltac:(vm_compute; reflexivity) ltac:(vm_compute; reflexivity)
           (or_introl eq_refl)).
Defined.

